(** * pyrs / py14: the C-like emitter and the C++14 back end

    A shallow embedding of [common/clike.py] (the shared C-like
    visitor with its operator-symbol table), [py14/transpiler.py] (the
    C++14 back end [CppTranspiler]) and [pyrs/declaration_extractor.py]
    (the initializer-form table of the Rust back end).

    The Python visitor threads two mutable attributes ([_vars] and
    [_function_stack]) through every call and may raise; it is embedded
    as a state-and-exception monad.  A visit returns a Python value that
    is either a [str] or [None]; this is [option string] here. *)

From Stdlib Require Import Ascii String.
From stdpp Require Import gmap strings list pretty.

Local Open Scope string_scope.
Local Open Scope list_scope.
Set Warnings "-register-all,-clear-no-such-hyp".

(** ** Python strings and values *)

(** The two characters that a Rocq string literal cannot hold directly. *)
Definition NL : string := String "010"%char EmptyString.
Definition DQ : string := String "034"%char EmptyString.

(** A value returned by a visit: [Some s] is the [str] [s], [None] is
    Python's [None]. *)
Abbreviation value := (option string).

Inductive exn :=
  | ValueError (msg : string)
  | NotImplementedError (msg : string)
  | TypeError
  | AttributeError
  | IndexError
  | KeyError.

Inductive result (A : Type) :=
  | Ok (a : A)
  | Raise (e : exn).
Arguments Ok {A} a.
Arguments Raise {A} e.

(** [str(v)], which is what [str.format] puts in place of a field. *)
Definition py_str (v : value) : string :=
  match v with
  | Some s => s
  | None => "None"
  end.

(** [sep.join(l)] on a list of strings. *)
Fixpoint join_strs (sep : string) (l : list string) : string :=
  match l with
  | [] => EmptyString
  | [x] => x
  | x :: r => x +:+ sep +:+ join_strs sep r
  end.

(** The strings of a list of values, unless one of them is [None]. *)
Fixpoint all_str (l : list value) : option (list string) :=
  match l with
  | [] => Some []
  | Some s :: r =>
      match all_str r with
      | Some ss => Some (s :: ss)
      | None => None
      end
  | None :: _ => None
  end.

(** [sep.join(l)]: a [TypeError] when an item is not a [str]. *)
Definition join (sep : string) (l : list value) : result string :=
  match all_str l with
  | Some ss => Ok (join_strs sep ss)
  | None => Raise TypeError
  end.

(** [filter(None, l)]: the truthy items, neither [None] nor empty. *)
Definition truthy (v : value) : bool :=
  match v with
  | Some (String _ _) => true
  | _ => false
  end.

Definition filter_None (l : list value) : list value :=
  List.filter truthy l.

(** [str.lower] on the ASCII letters. *)
Definition lower_ascii (c : ascii) : ascii :=
  let n := nat_of_ascii c in
  if (65 <=? n)%nat && (n <=? 90)%nat then ascii_of_nat (n + 32) else c.

Fixpoint lower (s : string) : string :=
  match s with
  | EmptyString => EmptyString
  | String c r => String (lower_ascii c) (lower r)
  end.

(** [str.isspace] on the code points below 256. *)
Definition is_space (c : ascii) : bool :=
  let n := nat_of_ascii c in
  ((9 <=? n)%nat && (n <=? 13)%nat) || ((28 <=? n)%nat && (n <=? 32)%nat)
  || (n =? 133)%nat || (n =? 160)%nat.

(** The truth value of [s.strip()]: some character is not white space. *)
Fixpoint strip_nonempty (s : string) : bool :=
  match s with
  | EmptyString => false
  | String c r => negb (is_space c) || strip_nonempty r
  end.

(** [s.endswith(c)] for a one-character suffix. *)
Fixpoint endswith_char (s : string) (c : ascii) : bool :=
  match s with
  | EmptyString => false
  | String d EmptyString => bool_decide (d = c)
  | String _ r => endswith_char r c
  end.

(** [needle in s] on strings. *)
Fixpoint startswith (p s : string) : bool :=
  match p, s with
  | EmptyString, _ => true
  | String a p', String b s' => bool_decide (a = b) && startswith p' s'
  | String _ _, EmptyString => false
  end.

Fixpoint contains (s needle : string) : bool :=
  startswith needle s ||
  match s with
  | EmptyString => false
  | String _ r => contains r needle
  end.

(** ** The syntax tree *)

(** The classes of childless nodes: the operator classes of [ast] and
    [Pass].  The last five have no entry in [symbols]. *)
Inductive symkind :=
  | Eq | Is | NotEq | Pass | Mult | Add | Sub | Div | FloorDiv | Mod
  | Lt | Gt | GtE | LtE | LShift | RShift | BitXor | BitOr | BitAnd
  | Not | IsNot | USub | And | Or | In
  | Pow | MatMult | NotIn | Invert | UAdd.

Global Instance symkind_eq_dec : EqDecision symkind.
Proof. solve_decision. Defined.

(** The payload of a [Constant] node: an [int], a [str], a [bool] or
    [None] (the other constants of Python are left out). *)
Inductive constant :=
  | CInt (z : Z)
  | CStr (s : string)
  | CBool (b : bool)
  | CNone.

(** [str(c)] *)
Definition constant_str (c : constant) : string :=
  match c with
  | CInt z => pretty z
  | CStr s => s
  | CBool true => "True"
  | CBool false => "False"
  | CNone => "None"
  end.

(** One type for every node, as the visitor takes any node and tells
    the classes apart at run time.  [Name] carries whether the node has
    an [is_annotation] attribute; [NameConstant] holds [True], [False]
    or [None]; the arguments of a [FunctionDef] are the nodes of
    [node.args.args]; [Other] is any class without a handler. *)
Inductive AST :=
  | Sym (k : symkind)
  | Name (id : string) (is_annotation : bool)
  | NameConstant (v : option bool)
  | Constant (n : constant)
  | Num (n : Z)
  | Str (s : string)
  | Return (v : option AST)
  | If (test : AST) (body orelse : list AST)
  | Continue
  | Break
  | While (test : AST) (body orelse : list AST)
  | Compare (left : AST) (ops comparators : list AST)
  | BoolOp (op : AST) (values : list AST)
  | UnaryOp (op operand : AST)
  | AugAssign (target op v : AST)
  | BinOp (left op right : AST)
  | FunctionDef (name : string) (args body : list AST)
  | Attribute (v : AST) (attr : string)
  | Call (func : AST) (args : list AST)
  | For (target iter : AST) (body orelse : list AST)
  | Expr (v : AST)
  | Module (body : list AST)
  | alias (name : string)
  | Import (names : list AST)
  | List (elts : list AST)
  | Subscript (v slice : AST)
  | Index (v : AST)
  | Ellipsis
  | Tuple (elts : list AST)
  | TryExcept (body handlers : list AST)
  | Assign (targets : list AST) (v : AST)
  | Other (class_name : string) (children : list AST).

(** ** common/clike.py: the operator-symbol table *)

Definition symbols : list (symkind * string) :=
  [ (Eq, "==");
    (Is, "==");
    (NotEq, "!=");
    (Pass, "/*pass*/");
    (Mult, "*");
    (Add, "+");
    (Sub, "-");
    (Div, "/");
    (FloorDiv, "/");
    (Mod, "%");
    (Lt, "<");
    (Gt, ">");
    (GtE, ">=");
    (LtE, "<=");
    (LShift, "<<");
    (RShift, ">>");
    (BitXor, "^");
    (BitOr, "|");
    (BitAnd, "&");
    (Not, "!");
    (IsNot, "!=");
    (USub, "-");
    (And, "&&");
    (Or, "||");
    (In, "in") ].

(** [d[k]] on a dictionary written as its list of items. *)
Fixpoint dict_get {K V} `{EqDecision K} (d : list (K * V)) (k : K) : option V :=
  match d with
  | [] => None
  | (k', v) :: r => if decide (k' = k) then Some v else dict_get r k
  end.

(** [k in d] *)
Definition dict_in {K V} `{EqDecision K} (d : list (K * V)) (k : K) : bool :=
  match dict_get d k with
  | Some _ => true
  | None => false
  end.

(** [c_symbol(node)] for a node of class [k]: [symbols[type(node)]]. *)
Definition c_symbol (k : symkind) : result string :=
  match dict_get symbols k with
  | Some s => Ok s
  | None => Raise KeyError
  end.

(** ** The visitor's state *)

(** The attributes of the visitor object.  [_type_map] is set by
    [CLikeTranspiler.__init__] only; [CppTranspiler.__init__] does not
    call it, so the attribute is absent ([None]) there. *)
Record transpiler := {
  _type_map : option (gmap string string);
  _function_stack : list AST;
  _vars : gset value
}.

(** [CppTranspiler()] *)
Definition CppTranspiler_init : transpiler :=
  {| _type_map := None; _function_stack := []; _vars := ∅ |}.

(** A method: it reads and updates the object, and returns or raises. *)
Definition M (A : Type) : Type := transpiler → result (A * transpiler).

Definition ret {A} (a : A) : M A := λ self, Ok (a, self).

Definition raise {A} (e : exn) : M A := λ _, Raise e.

Definition bind {A B} (m : M A) (k : A → M B) : M B :=
  λ self,
    match m self with
    | Ok (a, self') => k a self'
    | Raise e => Raise e
    end.

Definition lift {A} (r : result A) : M A :=
  match r with
  | Ok a => ret a
  | Raise e => raise e
  end.

Notation "'let*' x ':=' m 'in' k" := (bind m (λ x, k))
  (at level 10, x name, m at level 100, k at level 200).

(** [[f(x) for x in l]] *)
Section Comprehension.
Context {A B : Type} (f : A → M B).

Fixpoint for_each (l : list A) : M (list B) :=
  match l with
  | [] => ret []
  | x :: r =>
      let* y := f x in
      let* ys := for_each r in
      ret (y :: ys)
  end.
End Comprehension.

(** Reading and updating the attributes. *)
Definition get_vars : M (gset value) := λ self, Ok (_vars self, self).

(** [self._vars.add(x)] *)
Definition vars_add (x : value) : M unit :=
  λ self,
    Ok (tt, {| _type_map := _type_map self;
               _function_stack := _function_stack self;
               _vars := {[ x ]} ∪ _vars self |}).

(** [self._function_stack.append(node)] *)
Definition function_stack_append (n : AST) : M unit :=
  λ self,
    Ok (tt, {| _type_map := _type_map self;
               _function_stack := _function_stack self ++ [n];
               _vars := _vars self |}).

(** [self._function_stack.pop()] *)
Definition function_stack_pop : M unit :=
  λ self,
    match _function_stack self with
    | [] => Raise IndexError
    | _ :: _ =>
        Ok (tt, {| _type_map := _type_map self;
                   _function_stack := removelast (_function_stack self);
                   _vars := _vars self |})
    end.

(** [CLikeTranspiler.builtin_constants] *)
Definition builtin_constants : gset string := {[ "True"; "False" ]}.

(** [node.id]: only a [Name] has the attribute. *)
Definition node_id (n : AST) : result string :=
  match n with
  | Name id _ => Ok id
  | _ => Raise AttributeError
  end.

(** The [id] of every node of a list, in order, up to the first node
    that has none. *)
Fixpoint node_ids (l : list AST) : result (list string) :=
  match l with
  | [] => Ok []
  | n :: r =>
      match node_id n with
      | Ok i =>
          match node_ids r with
          | Ok ids => Ok (i :: ids)
          | Raise e => Raise e
          end
      | Raise e => Raise e
      end
  end.

(** [isinstance(node, ast.In)] and the like. *)
Definition isinstance_In (node : AST) : bool :=
  match node with
  | Sym In => true
  | _ => false
  end.

Definition isinstance_Mult (node : AST) : bool :=
  match node with
  | Sym Mult => true
  | _ => false
  end.

Definition isinstance_Num (node : AST) : bool :=
  match node with
  | Num _ => true
  | _ => false
  end.

Definition isinstance_List (node : AST) : bool :=
  match node with
  | List _ => true
  | _ => false
  end.

Definition isinstance_Subscript (node : AST) : bool :=
  match node with
  | Subscript _ _ => true
  | _ => false
  end.

(** ** The visitor *)

Section Visitor.

(** The functions of [tracer] that [py14/transpiler.py] imports are
    not part of the sources; the visitor is embedded for every
    [decltype], [is_list], [is_builtin_import] and [is_recursive].
    So is [visit_Any], which [visit_Compare] calls on a membership
    test and no class of the sources defines. *)
Variable decltype : AST → result string.
Variable is_list : AST → bool.
Variable is_builtin_import : string → bool.
Variable is_recursive : AST → bool.
Variable visit_Any : AST → M value.

(** How the generic handler of binary operations lays out the three
    fragments it is given (see [CLike_visit_BinOp]). *)
Variable binop_layout : value → value → value → result value.

(** *** The handlers, over the method [self.visit] they call *)
Section Handlers.
Variable visit : AST → M value.

(** [ast.NodeVisitor.generic_visit]: visit every child, return [None]. *)
Definition generic_visit (children : list AST) : M value :=
  let* _ := for_each visit children in
  ret None.

(** **** common/clike.py *)

Definition CLike_visit_Name (id : string) (is_annotation : bool) : M value :=
  if decide (id ∈ builtin_constants) then ret (Some (lower id))
  else if is_annotation then
    λ self,
      match _type_map self with
      | None => Raise AttributeError
      | Some type_map =>
          match type_map !! id with
          | Some t => Ok (Some t, self)
          | None => Ok (Some id, self)
          end
      end
  else ret (Some id).

Definition visit_NameConstant (v : option bool) : M value :=
  match v with
  | Some true => ret (Some "true")
  | Some false => ret (Some "false")
  | None => ret None
  end.

Definition visit_Constant (n : constant) : M value :=
  ret (Some (constant_str n)).

Definition CLike_visit_Str (s : string) : M value :=
  ret (Some (DQ +:+ s +:+ DQ)).

Definition visit_Return (v : option AST) : M value :=
  match v with
  | Some e =>
      let* t := visit e in
      ret (Some ("return " +:+ py_str t +:+ ";"))
  | None => ret (Some "return;")
  end.

Definition CLike_visit_If (test : AST) (body orelse : list AST)
    (use_parens : bool) : M value :=
  let* t := visit test in
  let head :=
    if use_parens then "if(" +:+ py_str t +:+ ") {"
    else "if " +:+ py_str t +:+ " {" in
  let* b := for_each visit body in
  let* o := for_each visit orelse in
  let buf :=
    match o with
    | _ :: _ => Some head :: b ++ [Some "} else {"] ++ o ++ [Some "}"]
    | [] => Some head :: b ++ [Some "}"]
    end in
  let* s := lift (join NL buf) in
  ret (Some s).

Definition visit_Continue : M value := ret (Some "continue;").

Definition visit_Break : M value := ret (Some "break;").

Definition visit_While (test : AST) (body : list AST)
    (use_parens : bool) : M value :=
  let* t := visit test in
  let head :=
    if use_parens then "while (" +:+ py_str t +:+ ") {"
    else "while " +:+ py_str t +:+ " {" in
  let* b := for_each visit body in
  let* s := lift (join NL (Some head :: b ++ [Some "}"])) in
  ret (Some s).

Definition visit_Compare (node left : AST)
    (ops comparators : list AST) : M value :=
  match ops with
  | [] => raise IndexError
  | op0 :: _ =>
      if isinstance_In op0 then visit_Any node
      else
        let* l := visit left in
        let* op := visit op0 in
        match comparators with
        | [] => raise IndexError
        | c0 :: _ =>
            let* r := visit c0 in
            ret (Some (py_str l +:+ " " +:+ py_str op +:+ " " +:+ py_str r))
        end
  end.

Definition visit_BoolOp (op : AST) (values : list AST) : M value :=
  let* o := visit op in
  match o with
  | None => raise AttributeError
  | Some sep =>
      let* vs := for_each visit values in
      let* s := lift (join sep vs) in
      ret (Some s)
  end.

Definition visit_UnaryOp (op operand : AST) : M value :=
  let* o := visit op in
  let* e := visit operand in
  ret (Some (py_str o +:+ py_str e)).

Definition visit_AugAssign (target op v : AST) : M value :=
  let* t := visit target in
  let* o := visit op in
  let* val := visit v in
  ret (Some (py_str t +:+ " " +:+ py_str o +:+ "= " +:+ py_str val +:+ ";")).

(** Modelled from the spec: [CLikeTranspiler.visit_BinOp], which
    [CppTranspiler.visit_BinOp] calls through [super], is missing
    from [common/clike.py].  The generic emitter renders the
    arithmetic operator symbols from the operator-symbol table, and
    every handler returns a fragment for exactly the node passed:
    the operands and the operator are visited, and their fragments
    laid out by [binop_layout]. *)
Definition CLike_visit_BinOp (left op right : AST) : M value :=
  let* l := visit left in
  let* o := visit op in
  let* r := visit right in
  lift (binop_layout l o r).

(** **** py14/transpiler.py *)

(** [template_fun()] of [visit_FunctionDef] *)
Definition template_fun (name : string) (args : list AST) : result string :=
  match node_ids args with
  | Raise e => Raise e
  | Ok ids =>
      let args := imap (λ idx id, ("T" +:+ pretty (idx + 1)%nat, id)) ids in
      let typenames := (λ arg, "typename " +:+ arg.1) <$> args in
      let template := "template <" +:+ join_strs ", " typenames +:+ ">" in
      let params := (λ arg, arg.1 +:+ " " +:+ arg.2) <$> args in
      Ok (template +:+ NL +:+ "auto " +:+ name +:+ "("
          +:+ join_strs ", " params +:+ ")")
  end.

(** [lambda_fun()] of [visit_FunctionDef] *)
Definition lambda_fun (name : string) (args : list AST) : result string :=
  match node_ids args with
  | Raise e => Raise e
  | Ok ids =>
      let params := (λ id, "auto " +:+ id) <$> ids in
      Ok ("auto " +:+ name +:+ " = [](" +:+ join_strs ", " params +:+ ")")
  end.

Definition visit_FunctionDef (node : AST) (name : string)
    (args body : list AST) : M value :=
  let* _ := function_stack_append node in
  let* b := for_each visit body in
  let* j := lift (join NL b) in
  let body := " {" +:+ NL +:+ j +:+ NL +:+ "}" in
  let* _ := function_stack_pop in
  if is_recursive node then
    let* f := lift (template_fun name args) in
    ret (Some (f +:+ body))
  else
    let* f := lift (lambda_fun name args) in
    ret (Some (f +:+ body +:+ ";")).

Definition visit_Attribute (v : AST) (attr : string) : M value :=
  let* id := lift (node_id v) in
  let plain :=
    let attr := if is_list v && bool_decide (attr = "append")
                then "push_back" else attr in
    ret (Some (id +:+ "." +:+ attr)) in
  if is_builtin_import id then
    ret (Some ("py14::" +:+ id +:+ "::" +:+ attr))
  else if decide (id = "math") then
    if decide (attr = "asin") then ret (Some "std::asin")
    else if decide (attr = "atan") then ret (Some "std::atan")
    else if decide (attr = "acos") then ret (Some "std::acos")
    else plain
  else plain.

Definition visit_Call (func : AST) (args : list AST) : M value :=
  let* fname := visit func in
  let* args :=
    match args with
    | _ :: _ =>
        let* vs := for_each visit args in
        lift (join ", " vs)
    | [] => ret EmptyString
    end in
  if decide (fname = Some "int") then
    ret (Some ("py14::to_int(" +:+ args +:+ ")"))
  else if decide (fname = Some "str") then
    ret (Some ("std::to_string(" +:+ args +:+ ")"))
  else if decide (fname = Some "max") then
    ret (Some ("std::max(" +:+ args +:+ ")"))
  else if decide (fname = Some "range" ∨ fname = Some "xrange") then
    ret (Some ("py14::range(" +:+ args +:+ ")"))
  else if decide (fname = Some "len") then
    ret (Some ("py14::len(" +:+ args +:+ ")"))
  else
    ret (Some (py_str fname +:+ "(" +:+ args +:+ ")")).

Definition visit_For (target iter : AST) (body : list AST) : M value :=
  let* t := visit target in
  let* i := visit iter in
  let head := "for(auto " +:+ py_str t +:+ " : " +:+ py_str i +:+ ") {" in
  let* b := for_each visit body in
  let* s := lift (join NL (Some head :: b ++ [Some "}"])) in
  ret (Some s).

Definition visit_Expr (v : AST) : M value :=
  let* s := visit v in
  match s with
  | None => raise AttributeError
  | Some s =>
      let s := if strip_nonempty s && negb (endswith_char s ";")
               then s +:+ ";" else s in
      if decide (s = ";") then ret (Some EmptyString) else ret (Some s)
  end.

Definition visit_Str (s : string) : M value :=
  let* q := CLike_visit_Str s in
  match q with
  | Some q => ret (Some (q +:+ "s"))
  | None => raise TypeError
  end.

Definition visit_Name (id : string) (is_annotation : bool) : M value :=
  if decide (id = "None") then ret (Some "nullptr")
  else CLike_visit_Name id is_annotation.

(** The text of the test that marks the entry point. *)
Definition main_test : string :=
  "__name__ == " +:+ DQ +:+ "__main__" +:+ DQ +:+ "s".

Definition visit_If (test : AST) (body orelse : list AST) : M value :=
  let* t := visit test in
  if decide (t = Some main_test) then
    let* b := for_each visit body in
    let buffer :=
      [Some "int main(int argc, char ** argv) {";
       Some "py14::sys::argv = std::vector<std::string>(argv, argv + argc);"]
      ++ b ++ [Some "}"] in
    let* s := lift (join NL buffer) in
    ret (Some s)
  else CLike_visit_If test body orelse true.

Definition visit_BinOp (left op right : AST) : M value :=
  match left with
  | List elts =>
      if isinstance_Mult op && isinstance_Num right then
        let* r := visit right in
        match elts with
        | [] => raise IndexError
        | e0 :: _ =>
            let* l := visit e0 in
            ret (Some ("std::vector (" +:+ py_str r +:+ "," +:+ py_str l +:+ ")"))
        end
      else CLike_visit_BinOp left op right
  | _ => CLike_visit_BinOp left op right
  end.

Definition visit_Module (body : list AST) : M value :=
  let* lines := for_each visit body in
  let* s := lift (join NL (filter_None lines)) in
  ret (Some s).

Definition visit_alias (name : string) : M value :=
  ret (Some ("#include " +:+ DQ +:+ name +:+ ".h" +:+ DQ)).

Definition visit_Import (names : list AST) : M value :=
  let* imports := for_each visit names in
  let* s := lift (join NL (filter_None imports)) in
  ret (Some s).

Definition visit_List (elts : list AST) : M value :=
  match elts with
  | e0 :: _ =>
      let* elements := for_each visit elts in
      let* value_type := lift (decltype e0) in
      let* j := lift (join ", " elements) in
      ret (Some ("std::vector<" +:+ value_type +:+ ">{" +:+ j +:+ "}"))
  | [] => raise (ValueError "Cannot create vector without elements")
  end.

Definition visit_Subscript (v slice : AST) : M value :=
  match slice with
  | Ellipsis => raise (NotImplementedError "Ellipsis not supported")
  | Index i =>
      let* val := visit v in
      let* idx := visit i in
      ret (Some (py_str val +:+ "[" +:+ py_str idx +:+ "]"))
  | _ => raise (NotImplementedError "Advanced Slicing not supported")
  end.

Definition visit_Tuple (elts : list AST) : M value :=
  let* elts := for_each visit elts in
  let* j := lift (join ", " elts) in
  ret (Some ("std::make_tuple(" +:+ j +:+ ")")).

Definition visit_TryExcept (body handlers : list AST)
    (finallybody : option (list AST)) : M value :=
  let* b := for_each visit body in
  let* h := for_each visit handlers in
  let* f :=
    match finallybody with
    | Some (_ :: _ as fb) =>
        let* vs := for_each visit fb in
        ret ([Some "try { // finally"] ++ vs ++ [Some "} throw e;"])
    | _ => ret []
    end in
  let buf :=
    [Some "try {"] ++ b ++ [Some "} catch (const std::exception& e) {"]
    ++ h ++ f ++
    [Some "}";
     Some ("catch (const std::overflow_error& e) { std::cout << "
           +:+ DQ +:+ "OVERFLOW ERROR" +:+ DQ +:+ " << std::endl; }");
     Some ("catch (const std::runtime_error& e) { std::cout << "
           +:+ DQ +:+ "RUNTIME ERROR" +:+ DQ +:+ " << std::endl; }");
     Some ("catch (...) { std::cout << "
           +:+ DQ +:+ "UNKNOWN ERROR" +:+ DQ +:+ " << std::endl; 0}")] in
  let* s := lift (join NL buf) in
  ret (Some s).

(** [isinstance(target, ast.Name) and target.id in self._vars] *)
Definition is_declared_Name (target : AST) (vars : gset value) : bool :=
  match target with
  | Name id _ => bool_decide (Some id ∈ vars)
  | _ => false
  end.

Definition visit_Assign (node : AST) (targets : list AST) (v : AST) : M value :=
  match targets with
  | [] => raise IndexError
  | target :: _ =>
      let reassign :=
        let* t := visit target in
        let* val := visit v in
        ret (Some (py_str t +:+ " = " +:+ py_str val +:+ ";")) in
      let declare :=
        let* t := visit target in
        let* val := visit v in
        let* _ := vars_add t in
        ret (Some ("auto " +:+ py_str t +:+ " = " +:+ py_str val +:+ ";")) in
      match target with
      | Tuple elts =>
          let* elts := for_each visit elts in
          let* val := visit v in
          let* j := lift (join ", " elts) in
          ret (Some ("std::tie(" +:+ j +:+ ") = " +:+ py_str val +:+ ";"))
      | _ =>
          let* vars := get_vars in
          if is_declared_Name target vars then reassign
          else
            match v with
            | List elts =>
                let* elements := for_each visit elts in
                let* ty := lift (decltype node) in
                let* t := visit target in
                let* j := lift (join ", " elements) in
                ret (Some (ty +:+ " " +:+ py_str t +:+ " {" +:+ j +:+ "};"))
            | _ =>
                if isinstance_Subscript target then reassign
                else declare
            end
      end
  end.

End Handlers.

(** *** [CLikeTranspiler.visit]

    A node whose class is a key of [symbols] is rendered by
    [c_symbol]; any other node goes to [ast.NodeVisitor.visit], which
    calls the handler named after the class of the node, or
    [generic_visit] when the visitor has none. *)
Fixpoint visit (node : AST) : M value :=
  match node with
  | Sym k =>
      if dict_in symbols k then
        let* s := lift (c_symbol k) in
        ret (Some s)
      else generic_visit visit []
  | Name id is_annotation => visit_Name id is_annotation
  | NameConstant v => visit_NameConstant v
  | Constant n => visit_Constant n
  | Num _ => generic_visit visit []
  | Str s => visit_Str s
  | Return v => visit_Return visit v
  | If test body orelse => visit_If visit test body orelse
  | Continue => visit_Continue
  | Break => visit_Break
  | While test body _ => visit_While visit test body true
  | Compare left_ ops comparators => visit_Compare visit node left_ ops comparators
  | BoolOp op values => visit_BoolOp visit op values
  | UnaryOp op operand => visit_UnaryOp visit op operand
  | AugAssign target op v => visit_AugAssign visit target op v
  | BinOp left_ op right_ => visit_BinOp visit left_ op right_
  | FunctionDef name args body => visit_FunctionDef visit node name args body
  | Attribute v attr => visit_Attribute v attr
  | Call func args => visit_Call visit func args
  | For target iter body _ => visit_For visit target iter body
  | Expr v => visit_Expr visit v
  | Module body => visit_Module visit body
  | alias name => visit_alias name
  | Import names => visit_Import visit names
  | List elts => visit_List visit elts
  | Subscript v slice => visit_Subscript visit v slice
  | Index v => generic_visit visit [v]
  | Ellipsis => generic_visit visit []
  | Tuple elts => visit_Tuple visit elts
  | TryExcept body handlers => visit_TryExcept visit body handlers None
  | Assign targets v => visit_Assign visit node targets v
  | Other _ children => generic_visit visit children
  end.

End Visitor.

(** ** pyrs/declaration_extractor.py *)

Definition type_by_initialization (init_str : string) : option string :=
  if decide (init_str = "vec![]") then Some "Vec<_>"
  else if decide (init_str = "HashMap::new()") then Some "HashMap<_,_>"
  else if decide (init_str = "None") then Some "Option<_>"
  else if decide (init_str = "true" ∨ init_str = "false") then Some "bool"
  else None.

(** The initializer-form table in the words of the specification: the
    empty-container constructor, the map constructor, the null sentinel
    and the two boolean literals, with the type each one declares. *)
Definition initializer_forms : list (string * string) :=
  [ ("vec![]", "Vec<_>");
    ("HashMap::new()", "HashMap<_,_>");
    ("None", "Option<_>");
    ("true", "bool");
    ("false", "bool") ].

(** ** The part of the state that a visit leaves in place *)

(** From [self] to [self']: the same [_type_map], the same
    [_function_stack], and no name taken out of [_vars]. *)
Definition frame (self self' : transpiler) : Prop :=
  _type_map self' = _type_map self
  ∧ _function_stack self' = _function_stack self
  ∧ _vars self ⊆ _vars self'.

Definition framed {A} (m : M A) : Prop :=
  ∀ self a self', m self = Ok (a, self') → frame self self'.

(** ** Vocabulary of the statements *)

(** A name that [visit_Name] renders as itself: neither a builtin
    constant nor [None]. *)
Definition plain_name (id : string) : Prop :=
  (id ∉ builtin_constants) ∧ (id ≠ "None").

(** The fixed builtin names with the target call of each, in the words
    of the specification of calls. *)
Definition builtin_calls : list (string * string) :=
  [ ("int", "py14::to_int");
    ("str", "std::to_string");
    ("max", "std::max");
    ("range", "py14::range");
    ("xrange", "py14::range");
    ("len", "py14::len") ].

(** The callee of the emitted call: the mapped target for a builtin
    name, the visited callee otherwise. *)
Definition callee_text (fname : value) : string :=
  match fname with
  | Some f => default f (dict_get builtin_calls f)
  | None => py_str fname
  end.

(** The type parameters [T1], ..., [Tn]. *)
Definition type_parameters (n : nat) : list string :=
  (λ idx, "T" +:+ pretty (idx + 1)%nat) <$> seq 0 n.

(** The state once the function stack is back to [stack]. *)
Definition with_function_stack (stack : list AST) (self : transpiler) : transpiler :=
  {| _type_map := _type_map self;
     _function_stack := stack;
     _vars := _vars self |}.

(** What a run returns, without the state it ends in. *)
Definition output {A} (r : result (A * transpiler)) : result A :=
  match r with
  | Ok (a, _) => Ok a
  | Raise e => Raise e
  end.

(** The visitor with a tracer that answers [int] for every type and
    [False] for [is_list] and [is_builtin_import], without a membership
    handler, and with the operands and the operator of a binary
    operation separated by spaces; for running examples. *)
Definition sample_visit_with (is_recursive : AST → bool) : AST → M value :=
  visit (λ _, Ok "int") (λ _, false) (λ _, false) is_recursive
    (λ _, raise AttributeError)
    (λ l o r, Ok (Some (py_str l +:+ " " +:+ py_str o +:+ " " +:+ py_str r))).

Definition sample_visit : AST → M value := sample_visit_with (λ _, false).

(** ** Further vocabulary *)

(** [isinstance(node, ast.Tuple)] and [isinstance(node, ast.Name)] *)
Definition isinstance_Tuple (node : AST) : bool :=
  match node with
  | Tuple _ => true
  | _ => false
  end.

Definition isinstance_Name (node : AST) : bool :=
  match node with
  | Name _ _ => true
  | _ => false
  end.

(** Whether an [Assign] node occurs in a tree. *)
Fixpoint has_Assign (node : AST) : bool :=
  match node with
  | Assign _ _ => true
  | Return (Some e) => has_Assign e
  | If test body orelse =>
      has_Assign test || existsb has_Assign body || existsb has_Assign orelse
  | While test body orelse =>
      has_Assign test || existsb has_Assign body || existsb has_Assign orelse
  | Compare left_ ops comparators =>
      has_Assign left_ || existsb has_Assign ops || existsb has_Assign comparators
  | BoolOp op values => has_Assign op || existsb has_Assign values
  | UnaryOp op operand => has_Assign op || has_Assign operand
  | AugAssign target op v => has_Assign target || has_Assign op || has_Assign v
  | BinOp left_ op right_ => has_Assign left_ || has_Assign op || has_Assign right_
  | FunctionDef _ args body => existsb has_Assign args || existsb has_Assign body
  | Attribute v _ => has_Assign v
  | Call func args => has_Assign func || existsb has_Assign args
  | For target iter body orelse =>
      has_Assign target || has_Assign iter
      || existsb has_Assign body || existsb has_Assign orelse
  | Expr v => has_Assign v
  | Module body => existsb has_Assign body
  | Import names => existsb has_Assign names
  | List elts => existsb has_Assign elts
  | Subscript v slice => has_Assign v || has_Assign slice
  | Index v => has_Assign v
  | Tuple elts => existsb has_Assign elts
  | TryExcept body handlers => existsb has_Assign body || existsb has_Assign handlers
  | Other _ children => existsb has_Assign children
  | _ => false
  end.

(** A method that returns with the object as it found it. *)
Definition stateless {A} (m : M A) : Prop :=
  ∀ self a self', m self = Ok (a, self') → self' = self.

(** The strings of a list of values that are not empty: what
    [filter(None, l)] keeps. *)
Fixpoint nonempty_strs (l : list value) : list string :=
  match l with
  | [] => []
  | Some (String c s) :: r => String c s :: nonempty_strs r
  | _ :: r => nonempty_strs r
  end.

Definition isinstance_Index (node : AST) : bool :=
  match node with
  | Index _ => true
  | _ => false
  end.

Definition isinstance_Ellipsis (node : AST) : bool :=
  match node with
  | Ellipsis => true
  | _ => false
  end.

(** The pairs of different classes that [symbols] renders alike. *)
Definition same_symbol : list (symkind * symkind) :=
  [ (Eq, Is); (Is, Eq);
    (NotEq, IsNot); (IsNot, NotEq);
    (Div, FloorDiv); (FloorDiv, Div);
    (Sub, USub); (USub, Sub) ].

(** The text of an [#include] line. *)
Definition include_line (name : string) : string :=
  "#include " +:+ DQ +:+ name +:+ ".h" +:+ DQ.

(** ** Induction on the tree *)

(** The nodes directly below a node. *)
Definition children (node : AST) : list AST :=
  match node with
  | Return (Some e) => [e]
  | If test body orelse => test :: body ++ orelse
  | While test body orelse => test :: body ++ orelse
  | Compare left_ ops comparators => left_ :: ops ++ comparators
  | BoolOp op values => op :: values
  | UnaryOp op operand => [op; operand]
  | AugAssign target op v => [target; op; v]
  | BinOp left_ op right_ => [left_; op; right_]
  | FunctionDef _ args body => args ++ body
  | Attribute v _ => [v]
  | Call func args => func :: args
  | For target iter body orelse => target :: iter :: body ++ orelse
  | Expr v => [v]
  | Module body => body
  | Import names => names
  | List elts => elts
  | Subscript v slice => [v; slice]
  | Index v => [v]
  | Tuple elts => elts
  | TryExcept body handlers => body ++ handlers
  | Assign targets v => v :: targets
  | Other _ children => children
  | _ => []
  end.

Section AST_induction.
Variable P : AST → Prop.
Hypothesis step : ∀ node, (∀ c, c ∈ children node → P c) → P node.

Lemma AST_children_ind : ∀ node, P node.
Proof.
  fix IH 1. intros node. apply step.
  apply Forall_forall.
  destruct node as
    [ k | id a | v | n | n | s | [e|] | test body orelse | | | test body orelse
    | l ops cs | op vs | op e | t op v | l op r | name args body | v attr
    | f args | t i body orelse | v | body | name | names | elts | v sl | v |
    | elts | body hs | ts v | cn ch ]; simpl;
    repeat match goal with
      | |- Forall P [] => constructor
      | |- Forall P (_ :: _) => constructor; [apply IH|]
      | |- Forall P (_ ++ _) => apply Forall_app_2
      end;
    match goal with
    | |- Forall P ?l => induction l; constructor; [apply IH | assumption]
    end.
Qed.
End AST_induction.

(** ** What a visit leaves in place *)

Lemma frame_refl self : frame self self.
Proof. by repeat split. Qed.

Lemma frame_trans s1 s2 s3 : frame s1 s2 → frame s2 s3 → frame s1 s3.
Proof.
  intros (Ht1 & Hs1 & Hv1) (Ht2 & Hs2 & Hv2).
  repeat split; [congruence | congruence | set_solver].
Qed.

Lemma framed_ret {A} (a : A) : framed (ret a).
Proof. intros self a' self' [= _ <-]. apply frame_refl. Qed.

Lemma framed_raise {A} (e : exn) : framed (@raise A e).
Proof. intros self a self' [=]. Qed.

Lemma framed_lift {A} (r : result A) : framed (lift r).
Proof. destruct r; [apply framed_ret | apply framed_raise]. Qed.

Lemma framed_bind {A B} (m : M A) (k : A → M B) :
  framed m → (∀ a, framed (k a)) → framed (bind m k).
Proof.
  intros Hm Hk self b self'. unfold bind.
  destruct (m self) as [[a s1]|e] eqn:E; [|done].
  intros Hb. eapply frame_trans; [by eapply Hm | by eapply Hk].
Qed.

Lemma framed_for_each {A B} (f : A → M B) (l : list A) :
  (∀ x, x ∈ l → framed (f x)) → framed (for_each f l).
Proof.
  induction l as [|x r IH]; intros Hf; simpl.
  - apply framed_ret.
  - apply framed_bind; [apply Hf; left|]; intros y.
    apply framed_bind; [apply IH; intros; apply Hf; by right|]; intros ys.
    apply framed_ret.
Qed.

Lemma framed_get_vars : framed get_vars.
Proof. intros self a self' [= _ <-]. apply frame_refl. Qed.

Lemma framed_vars_add x : framed (vars_add x).
Proof.
  intros self a self' [= _ <-]. repeat split; simpl. set_solver.
Qed.

Lemma framed_visit_Name id a : framed (visit_Name id a).
Proof.
  unfold visit_Name, CLike_visit_Name.
  repeat case_decide; try apply framed_ret.
  destruct a; [|apply framed_ret].
  intros self v self'. destruct (_type_map self) as [tm|]; [|done].
  destruct (tm !! id); intros [= _ <-]; apply frame_refl.
Qed.

Ltac framed_step hyp_tac :=
  match goal with
  | |- framed (ret _) => apply framed_ret
  | |- framed (raise _) => apply framed_raise
  | |- framed (lift _) => apply framed_lift
  | |- framed get_vars => apply framed_get_vars
  | |- framed (vars_add _) => apply framed_vars_add
  | |- framed (visit_Name _ _) => apply framed_visit_Name
  | |- framed (bind _ _) => apply framed_bind; [|intros ?]
  | |- framed (for_each _ _) => apply framed_for_each; intros ? ?
  | |- framed (if ?b then _ else _) => destruct b
  | |- framed (match ?x with _ => _ end) => destruct x
  | |- framed _ => hyp_tac
  end.

Section Frame.
Variable decltype : AST → result string.
Variable is_list : AST → bool.
Variable is_builtin_import : string → bool.
Variable is_recursive : AST → bool.
Variable visit_Any : AST → M value.
Variable binop_layout : value → value → value → result value.

Hypothesis visit_Any_framed : ∀ node, framed (visit_Any node).

Abbreviation self_visit :=
  (visit decltype is_list is_builtin_import is_recursive visit_Any binop_layout).

Lemma visit_framed_children node :
  framed (self_visit node) ∧ ∀ c, c ∈ children node → framed (self_visit c).
Proof.
  induction node as [node IH] using AST_children_ind.
  assert (Hc : ∀ c, c ∈ children node → framed (self_visit c))
    by (intros c Hc; apply IH, Hc).
  assert (Hg : ∀ c g, c ∈ children node → g ∈ children c → framed (self_visit g))
    by (intros c g Hc' Hg; by apply (IH c Hc')).
  split; [|exact Hc]. clear IH.
  destruct node; simpl in Hc, Hg.
  all: try (cbn [visit];
    unfold generic_visit, visit_NameConstant, visit_Constant, visit_Str,
      CLike_visit_Str, visit_Return, visit_If, CLike_visit_If,
      visit_Continue, visit_Break, visit_While, visit_BoolOp,
      visit_UnaryOp, visit_AugAssign, visit_Attribute, visit_Call,
      visit_For, visit_Expr, visit_Module, visit_alias, visit_Import,
      visit_List, visit_Subscript, visit_Tuple, visit_TryExcept;
    repeat framed_step ltac:(apply Hc; set_solver); fail).
  - (* Compare *)
    cbn [visit]. unfold visit_Compare.
    destruct ops as [|op0 ops]; [apply framed_raise|].
    destruct (isinstance_In op0); [apply visit_Any_framed|].
    repeat framed_step ltac:(apply Hc; set_solver).
  - (* BinOp *)
    cbn [visit]. unfold visit_BinOp, CLike_visit_BinOp.
    destruct node1;
      repeat framed_step ltac:(first
        [ apply Hc; set_solver
        | eapply (Hg (List _)); [by left | simpl; set_solver] ]).
  - (* FunctionDef *)
    cbn [visit]. unfold visit_FunctionDef.
    set (node := FunctionDef name args body).
    intros self v self'. unfold bind at 1. cbn [function_stack_append].
    set (self0 := {| _type_map := _type_map self;
                     _function_stack := _function_stack self ++ [node];
                     _vars := _vars self |}).
    unfold bind at 1.
    destruct (for_each self_visit body self0) as [[b self1]|e] eqn:Eb; [|done].
    assert (Hb : frame self0 self1).
    { eapply (framed_for_each self_visit body); [|exact Eb].
      intros c Hin. apply Hc. set_solver. }
    destruct Hb as (Ht & Hs & Hv). simpl in Ht, Hs, Hv.
    unfold bind at 1. destruct (join NL b) as [j|e]; [|done]. simpl.
    unfold bind at 1, function_stack_pop. rewrite Hs.
    destruct (_function_stack self ++ [node]) as [|x st] eqn:Est.
    { by destruct (_function_stack self). }
    rewrite <- Est, removelast_last.
    match goal with
    | |- ?m ?s = _ → _ =>
        assert (Hm : framed m)
          by (repeat framed_step ltac:(fail)); set (s2 := s)
    end.
    intros Hr. apply Hm in Hr. eapply frame_trans; [|exact Hr].
    repeat split; simpl; first [done | set_solver].
  - (* Subscript *)
    cbn [visit]. unfold visit_Subscript.
    destruct node2;
      repeat framed_step ltac:(first
        [ apply Hc; set_solver
        | match goal with
          | |- framed (self_visit ?g) =>
              apply (Hg (Index g)); [set_solver | simpl; set_solver]
          end ]).
  - (* Assign *)
    cbn [visit]. unfold visit_Assign.
    destruct targets as [|target ts]; [apply framed_raise|].
    cbv zeta.
    assert (Ht : framed (self_visit target)) by (apply Hc; set_solver).
    assert (Hv : framed (self_visit node)) by (apply Hc; set_solver).
    assert (Hte : ∀ e, e ∈ children target → framed (self_visit e))
      by (intros e He; apply (Hg target); [set_solver | exact He]).
    assert (Hve : ∀ e, e ∈ children node → framed (self_visit e))
      by (intros e He; apply (Hg node); [set_solver | exact He]).
    clear Hc Hg.
    destruct target;
      repeat framed_step ltac:(first
        [ assumption | apply Hte; assumption | apply Hve; assumption ]).
Qed.

(** A visit that returns leaves [_type_map] and [_function_stack] as
    they were, and takes no name out of [_vars]. *)
Lemma visit_framed node : framed (self_visit node).
Proof. apply visit_framed_children. Qed.

End Frame.

(** ** pyrs/declaration_extractor.py: the initializer-form table *)

Lemma type_by_initialization_forms init_str :
  type_by_initialization init_str = dict_get initializer_forms init_str.
Proof.
  unfold type_by_initialization, initializer_forms; simpl.
  repeat case_decide; try done; naive_solver.
Qed.

(** C9. [type_by_initialization] maps the four initializer forms (the
    empty-container constructor, the map constructor, the null
    sentinel, the two boolean literals) to their types, as the table
    [initializer_forms] has them, and returns no annotation exactly for
    every other initializer string. *)
Theorem type_by_initialization_exact :
  type_by_initialization "vec![]" = Some "Vec<_>"
  ∧ type_by_initialization "HashMap::new()" = Some "HashMap<_,_>"
  ∧ type_by_initialization "None" = Some "Option<_>"
  ∧ type_by_initialization "true" = Some "bool"
  ∧ type_by_initialization "false" = Some "bool"
  ∧ (∀ init_str,
       type_by_initialization init_str = dict_get initializer_forms init_str)
  ∧ (∀ init_str,
       type_by_initialization init_str = None
       ↔ init_str ∉ ["vec![]"; "HashMap::new()"; "None"; "true"; "false"]).
Proof.
  do 5 (split; [reflexivity|]).
  split; [exact type_by_initialization_forms|].
  intros init_str. split.
  - intros H Hin. unfold type_by_initialization in H.
    repeat case_decide; try done. set_solver.
  - intros Hnot. unfold type_by_initialization.
    repeat case_decide; try done; exfalso; apply Hnot; set_solver.
Qed.

(** ** Type parameters of a template *)

Lemma imap_typenames {B} (g : string → B) (tp : nat → string) (ids : list string) k :
  (λ arg : string * string, g arg.1) <$> imap (λ idx id, (tp (k + idx)%nat, id)) ids
  = g <$> (tp <$> seq k (length ids)).
Proof.
  revert k. induction ids as [|id ids IH]; intros k; [reflexivity|].
  rewrite imap_cons, fmap_cons. cbn [length seq]. rewrite !fmap_cons.
  rewrite Nat.add_0_r. f_equal.
  rewrite <- IH. f_equal. apply imap_ext. intros i x _. simpl.
  by rewrite Nat.add_succ_r.
Qed.

Lemma imap_params (g : string → string → string) (tp : nat → string)
    (ids : list string) k :
  (λ arg : string * string, g arg.1 arg.2)
    <$> imap (λ idx id, (tp (k + idx)%nat, id)) ids
  = zip_with g (tp <$> seq k (length ids)) ids.
Proof.
  revert k. induction ids as [|id ids IH]; intros k; [reflexivity|].
  rewrite imap_cons, fmap_cons. cbn [length seq]. rewrite fmap_cons.
  cbn [zip_with]. rewrite Nat.add_0_r. f_equal.
  rewrite <- IH. f_equal. apply imap_ext. intros i x _. simpl.
  by rewrite Nat.add_succ_r.
Qed.

Lemma type_parameters_length n : length (type_parameters n) = n.
Proof. unfold type_parameters. by rewrite length_fmap, length_seq. Qed.

Lemma type_parameters_NoDup n : NoDup (type_parameters n).
Proof.
  unfold type_parameters. apply NoDup_fmap_2_strong; [|apply NoDup_seq].
  intros i j _ _ H. injection H as H.
  apply pretty_nat_inj in H. lia.
Qed.

Lemma node_ids_length args ids : node_ids args = Ok ids → length ids = length args.
Proof.
  revert ids. induction args as [|a args IH]; intros ids; simpl.
  - by intros [= <-].
  - destruct (node_id a); [|done]. destruct (node_ids args); [|done].
    intros [= <-]. simpl. f_equal. by apply IH.
Qed.

(** ** The function stack *)

Lemma function_stack_pop_append self stack node :
  _function_stack self = stack ++ [node] →
  function_stack_pop self = Ok (tt, with_function_stack stack self).
Proof.
  intros H. unfold function_stack_pop, with_function_stack. rewrite H.
  destruct (stack ++ [node]) as [|x st] eqn:E.
  - by destruct stack.
  - by rewrite <- E, removelast_last.
Qed.

(** ** The visitor on one node *)

Section Claims.
Variable decltype : AST → result string.
Variable is_list : AST → bool.
Variable is_builtin_import : string → bool.
Variable is_recursive : AST → bool.
Variable visit_Any : AST → M value.
Variable binop_layout : value → value → value → result value.

Hypothesis visit_Any_framed : ∀ node, framed (visit_Any node).

Abbreviation self_visit :=
  (visit decltype is_list is_builtin_import is_recursive visit_Any binop_layout).

(** *** Operator symbols *)

Lemma visit_Sym k s self :
  dict_get symbols k = Some s → self_visit (Sym k) self = Ok (Some s, self).
Proof.
  intros H. cbn [visit]. unfold dict_in, c_symbol. by rewrite H.
Qed.

(** C10. Floor division and true division are both rendered with the
    symbol [/]: the two operator nodes, and any two binary operations
    or augmented assignments that differ in this operator only, are
    emitted alike from every state. *)
Theorem floor_division_as_division :
  c_symbol FloorDiv = Ok "/"
  ∧ c_symbol Div = Ok "/"
  ∧ (∀ self, self_visit (Sym FloorDiv) self = Ok (Some "/", self)
             ∧ self_visit (Sym Div) self = Ok (Some "/", self))
  ∧ (∀ left_ right_ self,
       self_visit (BinOp left_ (Sym FloorDiv) right_) self
       = self_visit (BinOp left_ (Sym Div) right_) self)
  ∧ (∀ target v self,
       self_visit (AugAssign target (Sym FloorDiv) v) self
       = self_visit (AugAssign target (Sym Div) v) self).
Proof.
  split; [reflexivity|]. split; [reflexivity|]. split; [|split].
  - intros self. split; by apply visit_Sym.
  - intros l r self. cbn [visit]. unfold visit_BinOp.
    destruct l; reflexivity.
  - intros t v self. reflexivity.
Qed.

(** *** Calls *)

(** The visits that [visit_Call] makes, up to the choice of the callee. *)
Lemma visit_Call_steps func args self fname self1 vs self2 ss :
  self_visit func self = Ok (fname, self1) →
  for_each self_visit args self1 = Ok (vs, self2) →
  all_str vs = Some ss →
  self_visit (Call func args) self
  = (let args := join_strs ", " ss in
     if decide (fname = Some "int") then
       ret (Some ("py14::to_int(" +:+ args +:+ ")"))
     else if decide (fname = Some "str") then
       ret (Some ("std::to_string(" +:+ args +:+ ")"))
     else if decide (fname = Some "max") then
       ret (Some ("std::max(" +:+ args +:+ ")"))
     else if decide (fname = Some "range" ∨ fname = Some "xrange") then
       ret (Some ("py14::range(" +:+ args +:+ ")"))
     else if decide (fname = Some "len") then
       ret (Some ("py14::len(" +:+ args +:+ ")"))
     else
       ret (Some (py_str fname +:+ "(" +:+ args +:+ ")"))) self2.
Proof.
  intros Hf Ha Hs. cbn [visit]. unfold visit_Call.
  unfold bind at 1. rewrite Hf.
  assert (Hargs :
    match args with
    | _ :: _ => let* vs := for_each self_visit args in lift (join ", " vs)
    | [] => ret EmptyString
    end self1 = Ok (join_strs ", " ss, self2)).
  { destruct args as [|a args].
    - simpl in Ha. injection Ha as <- <-. simpl in Hs. by injection Hs as <-.
    - unfold bind at 1. rewrite Ha. unfold join. by rewrite Hs. }
  unfold bind at 1. by rewrite Hargs.
Qed.

(** C7. A call is emitted as its callee applied once to the visited
    arguments, joined by commas in their order; the callee is the
    mapped target call when the visited callee is one of the builtin
    names [int], [str], [max], [range], [xrange], [len], and the
    visited callee itself otherwise. *)
Theorem visit_Call_mapping func args self fname self1 vs self2 ss :
  self_visit func self = Ok (fname, self1) →
  for_each self_visit args self1 = Ok (vs, self2) →
  all_str vs = Some ss →
  self_visit (Call func args) self
  = Ok (Some (callee_text fname +:+ "(" +:+ join_strs ", " ss +:+ ")"), self2).
Proof.
  intros Hf Ha Hs. rewrite (visit_Call_steps _ _ _ _ _ _ _ _ Hf Ha Hs).
  cbv zeta. unfold callee_text, builtin_calls.
  destruct fname as [f|].
  - simpl dict_get.
    repeat case_decide; simplify_eq; try reflexivity; naive_solver.
  - repeat case_decide; simplify_eq; try reflexivity; naive_solver.
Qed.

(** With a callee that is the name of a builtin, the emitted call
    is the mapped target call. *)
Lemma visit_Call_builtin_Name b target args self vs self' ss :
  dict_get builtin_calls b = Some target →
  for_each self_visit args self = Ok (vs, self') →
  all_str vs = Some ss →
  self_visit (Call (Name b false) args) self
  = Ok (Some (target +:+ "(" +:+ join_strs ", " ss +:+ ")"), self').
Proof.
  intros Hb Ha Hs.
  assert (Hn : self_visit (Name b false) self = Ok (Some b, self)).
  { unfold builtin_calls in Hb. simpl in Hb.
    repeat case_decide; simplify_eq; reflexivity. }
  rewrite (visit_Call_steps _ _ _ _ _ _ _ _ Hn Ha Hs). cbv zeta.
  unfold builtin_calls in Hb. simpl in Hb.
  repeat case_decide; simplify_eq; try reflexivity; naive_solver.
Qed.

(** *** Names and lists of nodes *)

Lemma visit_Name_plain id self :
  plain_name id → self_visit (Name id false) self = Ok (Some id, self).
Proof.
  intros [Hb Hn]. cbn [visit]. unfold visit_Name, CLike_visit_Name.
  by repeat case_decide.
Qed.

Lemma for_each_plain_names ids self :
  Forall plain_name ids →
  for_each self_visit ((λ id, Name id false) <$> ids) self = Ok (Some <$> ids, self).
Proof.
  induction 1 as [|id ids Hid _ IH]; [reflexivity|].
  rewrite !fmap_cons. cbn [for_each]. unfold bind at 1.
  rewrite (visit_Name_plain _ _ Hid). unfold bind at 1.
  by rewrite IH.
Qed.

Lemma all_str_Some ss : all_str (Some <$> ss) = Some ss.
Proof.
  induction ss as [|s ss IH]; [done|].
  rewrite fmap_cons. cbn [all_str]. by rewrite IH.
Qed.

Lemma all_str_app vs1 vs2 ss1 ss2 :
  all_str vs1 = Some ss1 → all_str vs2 = Some ss2 →
  all_str (vs1 ++ vs2) = Some (ss1 ++ ss2).
Proof.
  revert ss1. induction vs1 as [|[s|] vs1 IH]; intros ss1 H1 H2; simpl in *.
  - by injection H1 as <-.
  - destruct (all_str vs1) as [ss|]; [|done]. injection H1 as <-.
    by rewrite (IH ss eq_refl H2).
  - done.
Qed.

(** *** The entry point *)



(** *** List literals *)


(** *** Assignment to a tuple *)

(** C5, as the code has it. An assignment whose first target is a
    tuple of names is emitted as [std::tie(names) = value;] from
    every state, whether or not the names are in [_vars]: the set is
    neither looked at nor changed by the destructuring. *)
Theorem visit_Assign_Tuple_unchecked ids ts v self val self' :
  Forall plain_name ids →
  self_visit v self = Ok (val, self') →
  self_visit (Assign (Tuple ((λ id, Name id false) <$> ids) :: ts) v) self
  = Ok (Some ("std::tie(" +:+ join_strs ", " ids +:+ ") = "
              +:+ py_str val +:+ ";"), self').
Proof.
  intros Hids Hv. cbn [visit]. unfold visit_Assign. cbv zeta.
  unfold bind at 1. rewrite (for_each_plain_names _ _ Hids).
  unfold bind at 1. rewrite Hv. unfold bind at 1, join.
  by rewrite all_str_Some.
Qed.

(** *** What is left out *)

(** C6, as the code has it. A comparison is emitted from its left
    operand, its first operator and its first comparator, and an
    assignment from its first target: the operators, comparators and
    targets after the first do not change the result. *)
Theorem first_operator_and_target_only left_ op0 ops c0 cs target ts v self :
  isinstance_In op0 = false →
  isinstance_List v = false →
  self_visit (Compare left_ (op0 :: ops) (c0 :: cs)) self
  = self_visit (Compare left_ [op0] [c0]) self
  ∧ self_visit (Assign (target :: ts) v) self = self_visit (Assign [target] v) self.
Proof.
  intros Hop Hv. split.
  - cbn [visit]. unfold visit_Compare. by rewrite Hop.
  - cbn [visit]. unfold visit_Assign.
    destruct v; try discriminate Hv; reflexivity.
Qed.

(** *** Function definitions *)

(** C3. A function definition whose arguments are names and whose
    body is emitted becomes, when [is_recursive] holds of it, a
    template function with the type parameters [T1], ..., [Tn], one
    for each argument and all different, under the name of the
    function; otherwise it becomes a lambda with [auto] parameters
    bound to the name of the function. *)
Theorem visit_FunctionDef_shape name args body self ids bs self1 ss :
  node_ids args = Ok ids →
  for_each self_visit body
    (with_function_stack
       (_function_stack self ++ [FunctionDef name args body]) self)
  = Ok (bs, self1) →
  all_str bs = Some ss →
  self_visit (FunctionDef name args body) self
  = Ok (Some
          (if is_recursive (FunctionDef name args body) then
             (("template <"
               +:+ join_strs ", "
                     ((λ T, "typename " +:+ T) <$> type_parameters (length args))
               +:+ ">")
              +:+ NL +:+ "auto " +:+ name +:+ "("
              +:+ join_strs ", "
                    (zip_with (λ T id, T +:+ " " +:+ id)
                       (type_parameters (length args)) ids)
              +:+ ")")
             +:+ (" {" +:+ NL +:+ join_strs NL ss +:+ NL +:+ "}")
           else
             ("auto " +:+ name +:+ " = []("
              +:+ join_strs ", " ((λ id, "auto " +:+ id) <$> ids) +:+ ")")
             +:+ (" {" +:+ NL +:+ join_strs NL ss +:+ NL +:+ "}") +:+ ";"),
        with_function_stack (_function_stack self) self1)
  ∧ length (type_parameters (length args)) = length args
  ∧ NoDup (type_parameters (length args)).
Proof.
  intros Hids Hb Hs.
  split; [|split; [apply type_parameters_length | apply type_parameters_NoDup]].
  assert (Hfr : frame
    (with_function_stack
       (_function_stack self ++ [FunctionDef name args body]) self) self1).
  { eapply (framed_for_each self_visit body); [|exact Hb].
    intros c _. by apply visit_framed. }
  destruct Hfr as (_ & Hst & _). simpl in Hst.
  cbn [visit]. unfold visit_FunctionDef.
  unfold bind at 1. cbn [function_stack_append].
  unfold with_function_stack in Hb. unfold bind at 1. rewrite Hb.
  unfold bind at 1, join. rewrite Hs. cbn [lift ret].
  unfold bind at 1. rewrite (function_stack_pop_append _ _ _ Hst).
  rewrite <- (node_ids_length _ _ Hids).
  unfold template_fun, lambda_fun. rewrite Hids.
  destruct (is_recursive (FunctionDef name args body)).
  - unfold bind, lift, ret. cbv zeta.
    rewrite (imap_typenames (λ T, "typename " +:+ T)
               (λ idx, "T" +:+ pretty (idx + 1)%nat) ids 0).
    rewrite (imap_params (λ T id, T +:+ " " +:+ id)
               (λ idx, "T" +:+ pretty (idx + 1)%nat) ids 0).
    reflexivity.
  - unfold bind, lift, ret. cbv zeta.
    reflexivity.
Qed.

(** *** Assignment to a name *)


(** Second branch of [visit_Assign]: the name is in [_vars]. *)
Lemma visit_Assign_reassign id ts v self :
  plain_name id → Some id ∈ _vars self →
  self_visit (Assign (Name id false :: ts) v) self
  = match self_visit v self with
    | Ok (val, self1) =>
        Ok (Some (id +:+ " = " +:+ py_str val +:+ ";"), self1)
    | Raise e => Raise e
    end.
Proof.
  intros Hid Hin. cbn [visit]. unfold visit_Assign. cbv zeta.
  unfold bind at 1. cbn [get_vars is_declared_Name].
  rewrite bool_decide_eq_true_2 by done.
  unfold bind at 1.
  change (visit _ _ _ _ _ _ (Name id false) self)
    with (self_visit (Name id false) self).
  rewrite (visit_Name_plain _ _ Hid). unfold bind at 1.
  by destruct (self_visit v self) as [[val self1]|e].
Qed.


(** Third branch of [visit_Assign]: the name is not in [_vars] and
    the value is a list literal.  The state that results is the state
    after the visits of the elements: the name is not added. *)
Lemma visit_Assign_List id ts elts self :
  plain_name id → Some id ∉ _vars self →
  self_visit (Assign (Name id false :: ts) (List elts)) self
  = match for_each self_visit elts self with
    | Ok (elements, self1) =>
        match decltype (Assign (Name id false :: ts) (List elts)) with
        | Ok ty =>
            match join ", " elements with
            | Ok j =>
                Ok (Some (ty +:+ " " +:+ id +:+ " {" +:+ j +:+ "};"), self1)
            | Raise e => Raise e
            end
        | Raise e => Raise e
        end
    | Raise e => Raise e
    end.
Proof.
  intros Hid Hin. cbn [visit]. unfold visit_Assign. cbv zeta.
  unfold bind at 1. cbn [get_vars is_declared_Name].
  rewrite bool_decide_eq_false_2 by done.
  unfold bind at 1.
  destruct (for_each _ elts self) as [[elements self1]|e]; [|done].
  unfold bind at 1.
  destruct (decltype _) as [ty|e]; [|done]. cbn [lift ret].
  unfold bind at 1.
  change (visit _ _ _ _ _ _ (Name id false) self1)
    with (self_visit (Name id false) self1).
  rewrite (visit_Name_plain _ _ Hid). unfold bind at 1.
  by destruct (join ", " elements).
Qed.



(** C2, at the failing input [a = [1, 2, 3]] followed by [a = 5]:
    the first statement is emitted as a typed declaration but does
    not put [a] in [_vars], and the second statement is emitted as a
    second declaration, [auto a = 5;]. *)
Theorem list_assignment_not_recorded :
  self_visit (Module
           [Assign [Name "a" false]
              (List [Constant (CInt 1); Constant (CInt 2); Constant (CInt 3)]);
            Assign [Name "a" false] (Constant (CInt 5))])
    CppTranspiler_init
  = match decltype
            (Assign [Name "a" false]
               (List [Constant (CInt 1); Constant (CInt 2); Constant (CInt 3)]))
    with
    | Ok ty =>
        Ok (Some ((ty +:+ " a {1, 2, 3};") +:+ NL +:+ "auto a = 5;"),
            {| _type_map := None;
               _function_stack := [];
               _vars := {[ Some "a" ]} ∪ ∅ |})
    | Raise e => Raise e
    end.
Proof.
  clear visit_Any_framed.
  assert (Hid : plain_name "a") by (split; [set_solver | done]).
  cbn [visit]. unfold visit_Module. unfold bind at 1.
  cbn [for_each]. unfold bind at 1.
  change (visit _ _ _ _ _ _ (Assign ?t ?v) ?s)
    with (self_visit (Assign t v) s).
  rewrite (visit_Assign_List _ _ _ _ Hid) by set_solver.
  cbn [for_each]. 
  destruct (decltype _) as [ty|e]; [|reflexivity].
  destruct ty; reflexivity.
Qed.

End Claims.

(** ** The visitor on examples *)

Lemma sample_visit_Any_framed (node : AST) :
  framed ((λ _, raise AttributeError) node : M value).
Proof. apply framed_raise. Defined.

Lemma plain_name_x : plain_name "x".
Proof. split; [set_solver | done]. Defined.

Lemma plain_names_a_b : Forall plain_name ["a"; "b"].
Proof. repeat constructor; first [set_solver | done]. Defined.



Lemma visit_FunctionDef_shape_witness :
  let body :=
    [Return (Some (Call (Name "f" false)
                     [BinOp (Name "n" false) (Sym Sub) (Constant (CInt 1))]))] in
  let node := FunctionDef "f" [Name "n" false] body in
  node_ids [Name "n" false] = Ok ["n"]
  ∧ for_each (sample_visit_with (λ _, true)) body
      (with_function_stack (_function_stack CppTranspiler_init ++ [node])
         CppTranspiler_init)
    = Ok ([Some "return f(n - 1);"],
          with_function_stack [node] CppTranspiler_init)
  ∧ all_str [Some "return f(n - 1);"] = Some ["return f(n - 1);"]
  ∧ sample_visit_with (λ _, true) node CppTranspiler_init
    = Ok (Some (join_strs NL
                  ["template <typename T1>"; "auto f(T1 n) {";
                   "return f(n - 1);"; "}"]),
          CppTranspiler_init).
Proof.
  intros body node.
  assert (H1 : node_ids [Name "n" false] = Ok ["n"]) by reflexivity.
  assert (H2 : for_each (sample_visit_with (λ _, true)) body
      (with_function_stack (_function_stack CppTranspiler_init ++ [node])
         CppTranspiler_init)
    = Ok ([Some "return f(n - 1);"],
          with_function_stack [node] CppTranspiler_init)) by reflexivity.
  assert (H3 : all_str [Some "return f(n - 1);"] = Some ["return f(n - 1);"])
    by reflexivity.
  refine (conj H1 (conj H2 (conj H3 _))).
  exact (proj1 (visit_FunctionDef_shape _ _ _ (λ _, true) _ _
                  sample_visit_Any_framed "f" [Name "n" false] body
                  CppTranspiler_init _ _ _ _ H1 H2 H3)).
Defined.

(** The same function when the analysis answers that it is not
    recursive. *)
Lemma visit_FunctionDef_lambda_example :
  output
    (sample_visit
       (FunctionDef "f" [Name "n" false]
          [Return (Some (BinOp (Name "n" false) (Sym Add) (Constant (CInt 1))))])
       CppTranspiler_init)
  = Ok (Some (join_strs NL ["auto f = [](auto n) {"; "return n + 1;"; "};"])).
Proof. vm_compute. reflexivity. Qed.


Lemma visit_Assign_Tuple_unchecked_witness :
  Forall plain_name ["a"; "b"]
  ∧ sample_visit (Name "t" false) CppTranspiler_init
    = Ok (Some "t", CppTranspiler_init)
  ∧ sample_visit
      (Assign [Tuple [Name "a" false; Name "b" false]] (Name "t" false))
      CppTranspiler_init
    = Ok (Some "std::tie(a, b) = t;", CppTranspiler_init).
Proof.
  assert (H2 : sample_visit (Name "t" false) CppTranspiler_init
               = Ok (Some "t", CppTranspiler_init)) by reflexivity.
  refine (conj plain_names_a_b (conj H2 _)).
  exact (visit_Assign_Tuple_unchecked _ _ _ _ _ _ ["a"; "b"] []
           (Name "t" false) CppTranspiler_init _ _ plain_names_a_b H2).
Defined.

(** C5 as stated fails: neither [a] nor [b] is in [_vars], and the
    destructuring is emitted without an error. *)
Lemma visit_Assign_Tuple_counterexample :
  (Some "a" ∉ _vars CppTranspiler_init)
  ∧ (Some "b" ∉ _vars CppTranspiler_init)
  ∧ sample_visit
      (Assign [Tuple [Name "a" false; Name "b" false]] (Name "t" false))
      CppTranspiler_init
    = Ok (Some "std::tie(a, b) = t;", CppTranspiler_init).
Proof. repeat split; [simpl; set_solver | simpl; set_solver]. Qed.

Lemma first_operator_and_target_only_witness :
  isinstance_In (Sym Lt) = false
  ∧ isinstance_List (Constant (CInt 1)) = false
  ∧ sample_visit
      (Compare (Name "a" false) [Sym Lt; Sym Gt] [Name "b" false; Name "c" false])
      CppTranspiler_init
    = sample_visit (Compare (Name "a" false) [Sym Lt] [Name "b" false])
        CppTranspiler_init
  ∧ sample_visit (Assign [Name "a" false; Name "b" false] (Constant (CInt 1)))
      CppTranspiler_init
    = sample_visit (Assign [Name "a" false] (Constant (CInt 1)))
        CppTranspiler_init.
Proof.
  refine (conj eq_refl (conj eq_refl _)).
  exact (first_operator_and_target_only _ _ _ _ _ _
           (Name "a" false) (Sym Lt) [Sym Gt] (Name "b" false) [Name "c" false]
           (Name "a" false) [Name "b" false] (Constant (CInt 1))
           CppTranspiler_init eq_refl eq_refl).
Defined.

(** C6 as stated fails: for [a < b > c] the second operator and the
    second comparator are in no part of the output, and for
    [a = b = 1] the second target is in no part of it; no error is
    raised. *)
Lemma first_operator_and_target_only_counterexample :
  output
    (sample_visit
       (Compare (Name "a" false) [Sym Lt; Sym Gt] [Name "b" false; Name "c" false])
       CppTranspiler_init)
  = Ok (Some "a < b")
  ∧ contains "a < b" ">" = false
  ∧ contains "a < b" "c" = false
  ∧ output
      (sample_visit (Assign [Name "a" false; Name "b" false] (Constant (CInt 1)))
         CppTranspiler_init)
    = Ok (Some "auto a = 1;")
  ∧ contains "auto a = 1;" "b" = false.
Proof. repeat split; vm_compute; reflexivity. Qed.

Lemma visit_Call_mapping_witness :
  sample_visit (Name "max" false) CppTranspiler_init
  = Ok (Some "max", CppTranspiler_init)
  ∧ for_each sample_visit [Name "a" false; Name "b" false] CppTranspiler_init
    = Ok ([Some "a"; Some "b"], CppTranspiler_init)
  ∧ all_str [Some "a"; Some "b"] = Some ["a"; "b"]
  ∧ sample_visit (Call (Name "max" false) [Name "a" false; Name "b" false])
      CppTranspiler_init
    = Ok (Some "std::max(a, b)", CppTranspiler_init).
Proof.
  assert (H1 : sample_visit (Name "max" false) CppTranspiler_init
               = Ok (Some "max", CppTranspiler_init)) by reflexivity.
  assert (H2 : for_each sample_visit [Name "a" false; Name "b" false]
                 CppTranspiler_init
               = Ok ([Some "a"; Some "b"], CppTranspiler_init)) by reflexivity.
  assert (H3 : all_str [Some "a"; Some "b"] = Some ["a"; "b"]) by reflexivity.
  refine (conj H1 (conj H2 (conj H3 _))).
  exact (visit_Call_mapping _ _ _ _ _ _ (Name "max" false)
           [Name "a" false; Name "b" false] CppTranspiler_init
           _ _ _ _ _ H1 H2 H3).
Defined.


(** ** Strings and lists of values *)

Lemma string_app_cons x (s t : string) : String x s +:+ t = String x (s +:+ t).
Proof. reflexivity. Qed.

Lemma string_app_assoc (a b c : string) : (a +:+ b) +:+ c = a +:+ b +:+ c.
Proof.
  induction a as [|x a IH]; [done|]. rewrite !string_app_cons. by rewrite IH.
Qed.

Lemma endswith_char_app s c : endswith_char (s +:+ String c EmptyString) c = true.
Proof.
  induction s as [|x s IH].
  - by apply bool_decide_eq_true_2.
  - rewrite string_app_cons. cbn [endswith_char].
    destruct (s +:+ String c EmptyString) eqn:E; [by destruct s|].
    exact IH.
Qed.

Lemma all_str_filter_None l : all_str (filter_None l) = Some (nonempty_strs l).
Proof.
  induction l as [|[[|c s]|] l IH]; simpl; try done.
  by rewrite IH.
Qed.

Lemma all_str_elem_of_None l : None ∈ l → all_str l = None.
Proof.
  induction l as [|[s|] l IH]; intros H.
  - by apply elem_of_nil in H.
  - apply elem_of_cons in H as [H|H]; [done|]. simpl. by rewrite IH.
  - done.
Qed.

Lemma for_each_app_raise {A B} (f : A → M B) pre x post self outs s1 e :
  for_each f pre self = Ok (outs, s1) →
  f x s1 = Raise e →
  for_each f (pre ++ x :: post) self = Raise e.
Proof.
  revert self outs. induction pre as [|y pre IH]; intros self outs Hpre Hx.
  - injection Hpre as <- <-. simpl. unfold bind at 1. by rewrite Hx.
  - simpl in Hpre |- *. unfold bind at 1 in Hpre. unfold bind at 1.
    destruct (f y self) as [[z s]|e']; [|done].
    unfold bind at 1 in Hpre. unfold bind at 1.
    destruct (for_each f pre s) as [[zs s']|e'] eqn:E; [|done].
    injection Hpre as <- <-. by rewrite (IH _ _ E Hx).
Qed.


(** The operator classes without an entry in [symbols]. *)
Lemma symbols_missing k :
  dict_get symbols k = None ↔ k ∈ [Pow; MatMult; NotIn; Invert; UAdd].
Proof.
  split.
  - destruct k; simpl; intros H; try discriminate H; set_solver.
  - intros H. repeat (apply elem_of_cons in H as [->|H]; [reflexivity|]).
    by apply elem_of_nil in H.
Qed.

(** ** The operator-symbol table *)

(** X10. Two different operator classes are rendered with the same
    symbol only in four cases: [==] for [Eq] and [Is], [!=] for
    [NotEq] and [IsNot], [/] for [Div] and [FloorDiv], [-] for [Sub]
    and [USub]; and no class is listed twice in [symbols]. *)
Theorem symbols_collisions k1 k2 s :
  dict_get symbols k1 = Some s →
  dict_get symbols k2 = Some s →
  k1 = k2 ∨ (k1, k2) ∈ same_symbol.
Proof.
  intros H1 H2.
  destruct k1; simpl in H1; try discriminate H1; injection H1 as <-;
    destruct k2; simpl in H2; try discriminate H2;
    first [ by left | right; unfold same_symbol; set_solver ].
Qed.

Lemma symbols_keys_NoDup : NoDup (symbols.*1).
Proof. apply (bool_decide_unpack (NoDup (symbols.*1))). by vm_compute. Qed.

(** ** Only assignments change the state *)

Lemma existsb_false_elem_of {A} (f : A → bool) l x :
  existsb f l = false → x ∈ l → f x = false.
Proof.
  induction l as [|y l IH]; intros H Hin; [by apply elem_of_nil in Hin|].
  simpl in H. apply orb_false_iff in H as [Hy Hl].
  apply elem_of_cons in Hin as [->|Hin]; [done|by apply IH].
Qed.

Lemma has_Assign_children node c :
  has_Assign node = false → c ∈ children node → has_Assign c = false.
Proof.
  destruct node as
    [ k | id a | v | n | n | s | [e|] | test body orelse | | | test body orelse
    | l ops cs | op vs | op e | t op v | l op r | name args body | v attr
    | f args | t i body orelse | v | body | name | names | elts | v sl | v |
    | elts | body hs | ts v | cn ch ]; simpl; intros H Hin;
    try discriminate H; try (by apply elem_of_nil in Hin);
    repeat match goal with
    | H : _ || _ = false |- _ => apply orb_false_iff in H as [? ?]
    end;
    repeat match goal with
    | H : _ ∈ _ :: _ |- _ => apply elem_of_cons in H as [->|H]; [done|]
    | H : _ ∈ _ ++ _ |- _ => apply elem_of_app in H as [H|H]
    | H : _ ∈ [] |- _ => by apply elem_of_nil in H
    end;
    try done; eauto using existsb_false_elem_of.
Qed.

Lemma stateless_ret {A} (a : A) : stateless (ret a).
Proof. by intros self a' self' [= _ <-]. Qed.

Lemma stateless_raise {A} (e : exn) : stateless (@raise A e).
Proof. intros self a self' [=]. Qed.

Lemma stateless_lift {A} (r : result A) : stateless (lift r).
Proof. destruct r; [apply stateless_ret | apply stateless_raise]. Qed.

Lemma stateless_bind {A B} (m : M A) (k : A → M B) :
  stateless m → (∀ a, stateless (k a)) → stateless (bind m k).
Proof.
  intros Hm Hk self b self'. unfold bind.
  destruct (m self) as [[a s1]|e] eqn:E; [|done].
  intros Hb. apply Hm in E as ->. by apply Hk in Hb.
Qed.

Lemma stateless_for_each {A B} (f : A → M B) (l : list A) :
  (∀ x, x ∈ l → stateless (f x)) → stateless (for_each f l).
Proof.
  induction l as [|x r IH]; intros Hf; simpl.
  - apply stateless_ret.
  - apply stateless_bind; [apply Hf; left|]; intros y.
    apply stateless_bind; [apply IH; intros; apply Hf; by right|]; intros ys.
    apply stateless_ret.
Qed.

Lemma stateless_get_vars : stateless get_vars.
Proof. by intros self a self' [= _ <-]. Qed.

Lemma stateless_visit_Name id a : stateless (visit_Name id a).
Proof.
  unfold visit_Name, CLike_visit_Name.
  repeat case_decide; try apply stateless_ret.
  destruct a; [|apply stateless_ret].
  intros self v self'. destruct (_type_map self) as [tm|]; [|done].
  by destruct (tm !! id); intros [= _ <-].
Qed.

Ltac stateless_step hyp_tac :=
  match goal with
  | |- stateless (ret _) => apply stateless_ret
  | |- stateless (raise _) => apply stateless_raise
  | |- stateless (lift _) => apply stateless_lift
  | |- stateless get_vars => apply stateless_get_vars
  | |- stateless (visit_Name _ _) => apply stateless_visit_Name
  | |- stateless (bind _ _) => apply stateless_bind; [|intros ?]
  | |- stateless (for_each _ _) => apply stateless_for_each; intros ? ?
  | |- stateless (if ?b then _ else _) => destruct b
  | |- stateless (match ?x with _ => _ end) => destruct x
  | |- stateless _ => hyp_tac
  end.

Section Stateless.
Variable decltype : AST → result string.
Variable is_list : AST → bool.
Variable is_builtin_import : string → bool.
Variable is_recursive : AST → bool.
Variable visit_Any : AST → M value.
Variable binop_layout : value → value → value → result value.

Hypothesis visit_Any_stateless : ∀ node, stateless (visit_Any node).

Abbreviation self_visit :=
  (visit decltype is_list is_builtin_import is_recursive visit_Any binop_layout).

Lemma visit_stateless_children node :
  has_Assign node = false →
  stateless (self_visit node) ∧ ∀ c, c ∈ children node → stateless (self_visit c).
Proof.
  induction node as [node IH] using AST_children_ind. intros Hno.
  assert (Hc : ∀ c, c ∈ children node → stateless (self_visit c)).
  { intros c Hc. apply IH; [done|]. by eapply has_Assign_children. }
  assert (Hg : ∀ c g, c ∈ children node → g ∈ children c → stateless (self_visit g)).
  { intros c g Hc' Hg. apply (IH c Hc'); [|done]. by eapply has_Assign_children. }
  split; [|exact Hc]. clear IH.
  destruct node; simpl in Hc, Hg; try discriminate Hno; clear Hno.
  all: try (cbn [visit];
    unfold generic_visit, visit_NameConstant, visit_Constant, visit_Str,
      CLike_visit_Str, visit_Return, visit_If, CLike_visit_If,
      visit_Continue, visit_Break, visit_While, visit_BoolOp,
      visit_UnaryOp, visit_AugAssign, visit_Attribute, visit_Call,
      visit_For, visit_Expr, visit_Module, visit_alias, visit_Import,
      visit_List, visit_Subscript, visit_Tuple, visit_TryExcept;
    repeat stateless_step ltac:(apply Hc; set_solver); fail).
  - (* Compare *)
    cbn [visit]. unfold visit_Compare.
    destruct ops as [|op0 ops]; [apply stateless_raise|].
    destruct (isinstance_In op0); [apply visit_Any_stateless|].
    repeat stateless_step ltac:(apply Hc; set_solver).
  - (* BinOp *)
    cbn [visit]. unfold visit_BinOp, CLike_visit_BinOp.
    destruct node1;
      repeat stateless_step ltac:(first
        [ apply Hc; set_solver
        | eapply (Hg (List _)); [by left | simpl; set_solver] ]).
  - (* FunctionDef *)
    cbn [visit]. unfold visit_FunctionDef.
    set (node := FunctionDef name args body).
    intros self v self'. unfold bind at 1. cbn [function_stack_append].
    set (self0 := {| _type_map := _type_map self;
                     _function_stack := _function_stack self ++ [node];
                     _vars := _vars self |}).
    unfold bind at 1.
    destruct (for_each self_visit body self0) as [[b self1]|e] eqn:Eb; [|done].
    assert (self1 = self0) as ->.
    { eapply (stateless_for_each self_visit body); [|exact Eb].
      intros c Hin. apply Hc. set_solver. }
    unfold bind at 1. destruct (join NL b) as [j|e]; [|done]. simpl.
    unfold bind at 1, function_stack_pop. simpl.
    destruct (_function_stack self ++ [node]) as [|x st] eqn:Est.
    { by destruct (_function_stack self). }
    rewrite <- Est, removelast_last.
    match goal with
    | |- ?m ?s = _ → _ =>
        assert (Hm : stateless m)
          by (repeat stateless_step ltac:(fail))
    end.
    intros Hr. apply Hm in Hr as ->. by destruct self.
  - (* Subscript *)
    cbn [visit]. unfold visit_Subscript.
    destruct node2;
      repeat stateless_step ltac:(first
        [ apply Hc; set_solver
        | match goal with
          | |- stateless (self_visit ?g) =>
              apply (Hg (Index g)); [set_solver | simpl; set_solver]
          end ]).
Qed.

(** X2. A visit of a tree in which no [Assign] occurs returns with the
    state as it found it. *)
Theorem visit_without_Assign_stateless node self v self' :
  has_Assign node = false →
  self_visit node self = Ok (v, self') →
  self' = self.
Proof.
  intros Hno Hv. by apply (proj1 (visit_stateless_children node Hno)) in Hv.
Qed.

End Stateless.

(** ** Further properties of the visitor *)

Section Further.
Variable decltype : AST → result string.
Variable is_list : AST → bool.
Variable is_builtin_import : string → bool.
Variable is_recursive : AST → bool.
Variable visit_Any : AST → M value.
Variable binop_layout : value → value → value → result value.

Hypothesis visit_Any_framed : ∀ node, framed (visit_Any node).

Abbreviation self_visit :=
  (visit decltype is_list is_builtin_import is_recursive visit_Any binop_layout).

(** *** The state *)

(** X1. A visit that returns leaves [_type_map] and [_function_stack]
    as they were and takes no name out of [_vars]. *)
Theorem visit_keeps_state node self v self' :
  self_visit node self = Ok (v, self') →
  frame self self'.
Proof.
  intros Hv.
  exact (visit_framed _ _ _ _ _ _ visit_Any_framed node self v self' Hv).
Qed.

(** *** Modules *)

(** X3. The first statement of a module that raises ends the visit of
    the module with its exception: nothing is returned for the
    statements before it. *)
Theorem visit_Module_first_error pre stmt post self outs self1 e :
  for_each self_visit pre self = Ok (outs, self1) →
  self_visit stmt self1 = Raise e →
  self_visit (Module (pre ++ stmt :: post)) self = Raise e.
Proof.
  clear visit_Any_framed.
  intros Hpre Hstmt. cbn [visit]. unfold visit_Module. unfold bind at 1.
  by rewrite (for_each_app_raise _ _ _ _ _ _ _ _ Hpre Hstmt).
Qed.

(** X4. A module whose statements are all visited without an exception
    is emitted, whatever the visits return: the lines are the returned
    strings that are not empty, in order; a statement that returns
    [None] or the empty string leaves no line. *)
Theorem visit_Module_lines body self lines self' :
  for_each self_visit body self = Ok (lines, self') →
  self_visit (Module body) self
  = Ok (Some (join_strs NL (nonempty_strs lines)), self').
Proof.
  clear visit_Any_framed.
  intros Hb. cbn [visit]. unfold visit_Module. unfold bind at 1. rewrite Hb.
  unfold bind at 1, join. by rewrite all_str_filter_None.
Qed.

(** *** Blocks *)

(** X5. Inside a function definition, a statement whose visit returns
    [None] makes the definition raise a [TypeError]. *)
Theorem visit_FunctionDef_None_statement name args body self bs self1 :
  for_each self_visit body
    (with_function_stack
       (_function_stack self ++ [FunctionDef name args body]) self)
  = Ok (bs, self1) →
  None ∈ bs →
  self_visit (FunctionDef name args body) self = Raise TypeError.
Proof.
  clear visit_Any_framed.
  intros Hb Hnone. cbn [visit]. unfold visit_FunctionDef.
  unfold bind at 1. cbn [function_stack_append].
  unfold with_function_stack in Hb. unfold bind at 1. rewrite Hb.
  unfold bind at 1, join. by rewrite (all_str_elem_of_None _ Hnone).
Qed.

(** X6. In the body of a [while] loop, a statement whose visit returns
    [None] makes the loop raise a [TypeError]. *)
Theorem visit_While_None_statement test body orelse self t self1 bs self2 :
  self_visit test self = Ok (t, self1) →
  for_each self_visit body self1 = Ok (bs, self2) →
  None ∈ bs →
  self_visit (While test body orelse) self = Raise TypeError.
Proof.
  clear visit_Any_framed.
  intros Ht Hb Hnone. cbn [visit]. unfold visit_While.
  unfold bind at 1. rewrite Ht. unfold bind at 1. rewrite Hb.
  unfold bind at 1, join.
  rewrite (all_str_elem_of_None (Some _ :: bs ++ [Some "}"])); [done|].
  set_solver.
Qed.

(** *** Expression statements *)

(** X7. An expression statement that is emitted is a string that is
    never a lone semicolon, and that ends with a semicolon unless it
    is blank. *)
Theorem visit_Expr_semicolon v self r self' :
  self_visit (Expr v) self = Ok (r, self') →
  ∃ s, r = Some s
       ∧ s ≠ ";"
       ∧ (strip_nonempty s = true → endswith_char s ";" = true).
Proof.
  clear visit_Any_framed.
  cbn [visit]. unfold visit_Expr. unfold bind at 1.
  destruct (self_visit v self) as [[[s|] s1]|e]; [|done|done].
  destruct (strip_nonempty s && negb (endswith_char s ";")) eqn:E.
  - case_decide as Hs; intros [= <- <-].
    + exists EmptyString. by repeat split.
    + exists (s +:+ ";"). repeat split; [done|]. intros _.
      apply endswith_char_app.
  - case_decide as Hs; intros [= <- <-].
    + exists EmptyString. by repeat split.
    + exists s. repeat split; [done|]. intros Hstrip.
      rewrite Hstrip in E. simpl in E. by apply negb_false_iff in E.
Qed.

(** *** Operators *)

(** X9. An operator class without an entry in [symbols] raises
    nothing: its visit returns [None], and an augmented assignment
    with such an operator is emitted with the text [None] in the place
    of the symbol. *)
Theorem visit_AugAssign_unknown_operator k target v self t self1 val self2 :
  dict_get symbols k = None →
  self_visit target self = Ok (t, self1) →
  self_visit v self1 = Ok (val, self2) →
  c_symbol k = Raise KeyError
  ∧ self_visit (Sym k) self1 = Ok (None, self1)
  ∧ self_visit (AugAssign target (Sym k) v) self
    = Ok (Some (py_str t +:+ " None= " +:+ py_str val +:+ ";"), self2).
Proof.
  clear visit_Any_framed.
  intros Hk Ht Hv.
  assert (Hsym : ∀ s, self_visit (Sym k) s = Ok (None, s)).
  { intros s. cbn [visit]. unfold dict_in. by rewrite Hk. }
  split; [unfold c_symbol; by rewrite Hk|]. split; [apply Hsym|].
  cbn [visit]. unfold visit_AugAssign. unfold bind at 1. rewrite Ht.
  unfold bind at 1.
  change (visit _ _ _ _ _ _ (Sym k) self1) with (self_visit (Sym k) self1).
  rewrite Hsym. unfold bind at 1. by rewrite Hv.
Qed.

(** X8. [c_symbol] raises a [KeyError] exactly for the classes [Pow],
    [MatMult], [NotIn], [Invert] and [UAdd], and [visit] never lets it
    out: the visit of an operator node returns, with the symbol of the
    class or with [None], and leaves the state as it was. *)
Theorem visit_Sym_never_raises k self :
  self_visit (Sym k) self = Ok (dict_get symbols k, self)
  ∧ (c_symbol k = Raise KeyError ↔ k ∈ [Pow; MatMult; NotIn; Invert; UAdd]).
Proof.
  clear visit_Any_framed.
  split.
  - cbn [visit]. unfold dict_in, c_symbol.
    by destruct (dict_get symbols k).
  - rewrite <- symbols_missing. unfold c_symbol.
    by destruct (dict_get symbols k).
Qed.

(** X11. An identity comparison is emitted as the equality comparison
    of the same operands: [is] as [==] and [is not] as [!=]. *)
Theorem visit_Compare_identity left_ right_ self :
  c_symbol Is = c_symbol Eq
  ∧ c_symbol IsNot = c_symbol NotEq
  ∧ self_visit (Compare left_ [Sym Is] [right_]) self
    = self_visit (Compare left_ [Sym Eq] [right_]) self
  ∧ self_visit (Compare left_ [Sym IsNot] [right_]) self
    = self_visit (Compare left_ [Sym NotEq] [right_]) self.
Proof. repeat split; reflexivity. Qed.

Lemma for_each_two {A B} (f : A → M B) x y self :
  for_each f [x; y] self
  = match f x self with
    | Ok (a, self1) =>
        match f y self1 with
        | Ok (b, self2) => Ok ([a; b], self2)
        | Raise e => Raise e
        end
    | Raise e => Raise e
    end.
Proof.
  cbn [for_each]. unfold bind at 1. destruct (f x self) as [[a s1]|e]; [|done].
  unfold bind at 1. unfold bind at 1. by destruct (f y s1) as [[b s2]|e].
Qed.

Lemma visit_BoolOp_symbol k sep values self :
  dict_get symbols k = Some sep →
  self_visit (BoolOp (Sym k) values) self
  = match for_each self_visit values self with
    | Ok (vs, self') =>
        match join sep vs with
        | Ok s => Ok (Some s, self')
        | Raise e => Raise e
        end
    | Raise e => Raise e
    end.
Proof.
  intros Hk. cbn [visit]. unfold visit_BoolOp. unfold bind at 1.
  change (visit _ _ _ _ _ _ (Sym k) self) with (self_visit (Sym k) self).
  assert (Hs : self_visit (Sym k) self = Ok (Some sep, self)).
  { cbn [visit]. unfold dict_in, c_symbol. by rewrite Hk. }
  rewrite Hs. unfold bind at 1.
  destruct (for_each self_visit values self) as [[vs s']|e]; [|done].
  unfold bind at 1. by destruct (join sep vs).
Qed.

(** X12. Boolean operations are emitted without parentheses: with
    operands that are emitted, [(a or b) and c] and [a or (b and c)]
    give the same result, the text [a||b&&c]. *)
Theorem visit_BoolOp_no_parentheses a b c self sa sb self2 :
  for_each self_visit [a; b] self = Ok ([Some sa; Some sb], self2) →
  self_visit (BoolOp (Sym And) [BoolOp (Sym Or) [a; b]; c]) self
  = self_visit (BoolOp (Sym Or) [a; BoolOp (Sym And) [b; c]]) self
  ∧ ∀ sc self3,
      self_visit c self2 = Ok (Some sc, self3) →
      self_visit (BoolOp (Sym And) [BoolOp (Sym Or) [a; b]; c]) self
      = Ok (Some (sa +:+ "||" +:+ sb +:+ "&&" +:+ sc), self3).
Proof.
  clear visit_Any_framed.
  intros Hab. rewrite for_each_two in Hab.
  destruct (self_visit a self) as [[ra self1]|e] eqn:Ha; [|done].
  destruct (self_visit b self1) as [[rb s2]|e] eqn:Hb; [|done].
  injection Hab as -> -> ->.
  assert (Hl : self_visit (BoolOp (Sym And) [BoolOp (Sym Or) [a; b]; c]) self
    = match self_visit c self2 with
      | Ok (Some sc, self3) =>
          Ok (Some (sa +:+ "||" +:+ sb +:+ "&&" +:+ sc), self3)
      | Ok (None, _) => Raise TypeError
      | Raise e => Raise e
      end).
  { rewrite (visit_BoolOp_symbol And "&&") by reflexivity.
    rewrite for_each_two.
    rewrite (visit_BoolOp_symbol Or "||") by reflexivity.
    rewrite for_each_two, Ha, Hb. cbn [join all_str join_strs].
    destruct (self_visit c self2) as [[[sc|] self3]|e]; try done.
    cbn [join all_str join_strs]. by rewrite string_app_assoc. }
  assert (Hr : self_visit (BoolOp (Sym Or) [a; BoolOp (Sym And) [b; c]]) self
    = match self_visit c self2 with
      | Ok (Some sc, self3) =>
          Ok (Some (sa +:+ "||" +:+ sb +:+ "&&" +:+ sc), self3)
      | Ok (None, _) => Raise TypeError
      | Raise e => Raise e
      end).
  { rewrite (visit_BoolOp_symbol Or "||") by reflexivity.
    rewrite for_each_two, Ha.
    rewrite (visit_BoolOp_symbol And "&&") by reflexivity.
    rewrite for_each_two, Hb.
    by destruct (self_visit c self2) as [[[sc|] self3]|e]. }
  split; [by rewrite Hl, Hr|].
  intros sc self3 Hc. by rewrite Hl, Hc.
Qed.

(** *** Guarded regions *)


(** *** Conditionals *)

(** X15. The conditional that marks the entry point is recognised by
    the text of its test, and its [else] branch is neither visited nor
    emitted. *)
Theorem visit_If_main_drops_orelse test body orelse self self1 :
  self_visit test self = Ok (Some main_test, self1) →
  self_visit (If test body orelse) self = self_visit (If test body []) self
  ∧ self_visit (If test body orelse) self
    = match for_each self_visit body self1 with
      | Ok (bs, self2) =>
          match all_str bs with
          | Some ss =>
              Ok (Some (join_strs NL
                          ("int main(int argc, char ** argv) {"
                           :: "py14::sys::argv = std::vector<std::string>(argv, argv + argc);"
                           :: ss ++ ["}"])), self2)
          | None => Raise TypeError
          end
      | Raise e => Raise e
      end.
Proof.
  clear visit_Any_framed.
  intros Ht.
  assert (H : ∀ o, self_visit (If test body o) self
    = match for_each self_visit body self1 with
      | Ok (bs, self2) =>
          match all_str bs with
          | Some ss =>
              Ok (Some (join_strs NL
                          ("int main(int argc, char ** argv) {"
                           :: "py14::sys::argv = std::vector<std::string>(argv, argv + argc);"
                           :: ss ++ ["}"])), self2)
          | None => Raise TypeError
          end
      | Raise e => Raise e
      end).
  { intros o. cbn [visit]. unfold visit_If. unfold bind at 1. rewrite Ht.
    rewrite decide_True by reflexivity. unfold bind at 1.
    destruct (for_each self_visit body self1) as [[bs self2]|e]; [|done].
    unfold bind at 1, join. cbn [app all_str].
    destruct (all_str bs) as [ss|] eqn:Hs.
    - by rewrite (all_str_app bs [Some "}"] ss ["}"] Hs eq_refl).
    - replace (all_str (bs ++ [Some "}"])) with (@None (list string)); [done|].
      clear -Hs. induction bs as [|[x|] bs IH]; simpl in *; try done.
      destruct (all_str bs); [done|]. by rewrite <- IH. }
  split; [by rewrite !H | apply H].
Qed.

(** *** Subscripts *)

(** X16. A subscript whose slice is not an [Index] raises a
    [NotImplementedError] before anything is visited, whatever the
    subscripted value is, and so does an assignment to it of a value
    that is not a list literal. *)
Theorem visit_Subscript_unsupported v slice ts val self :
  isinstance_Index slice = false →
  isinstance_List val = false →
  let e := NotImplementedError
             (if isinstance_Ellipsis slice then "Ellipsis not supported"
              else "Advanced Slicing not supported") in
  self_visit (Subscript v slice) self = Raise e
  ∧ self_visit (Assign (Subscript v slice :: ts) val) self = Raise e.
Proof.
  clear visit_Any_framed.
  intros Hs Hval e.
  assert (H : ∀ s, self_visit (Subscript v slice) s = Raise e).
  { intros s. cbn [visit]. unfold visit_Subscript.
    destruct slice; try discriminate Hs; reflexivity. }
  split; [apply H|].
  cbn [visit]. unfold visit_Assign. cbv zeta.
  unfold bind at 1. cbn [get_vars is_declared_Name isinstance_Subscript].
  change (visit _ _ _ _ _ _ (Subscript v slice)) with (self_visit (Subscript v slice)).
  destruct val; try discriminate Hval; unfold bind at 1; by rewrite H.
Qed.

(** *** Attributes *)

(** X17. An attribute of a name is always emitted, as a string, and
    leaves the state as it was; an attribute of anything that is not a
    name raises an [AttributeError]. *)
Theorem visit_Attribute_receiver v attr self :
  (isinstance_Name v = true →
   ∃ s, self_visit (Attribute v attr) self = Ok (Some s, self))
  ∧ (isinstance_Name v = false →
     self_visit (Attribute v attr) self = Raise AttributeError).
Proof.
  clear visit_Any_framed.
  split; intros Hv; cbn [visit]; unfold visit_Attribute;
    destruct v; try discriminate Hv; try reflexivity.
  unfold bind at 1. cbn [node_id lift ret].
  repeat case_match; by eexists.
Qed.

(** *** Assignments *)

(** X19. An assignment to a subscript of a value that is not a list
    literal is emitted as a plain assignment, and the state it ends in
    is the one after the visits of the target and of the value:
    nothing is put in [_vars]. *)
Theorem visit_Assign_Subscript tv slice ts v self t self1 val self2 :
  isinstance_List v = false →
  self_visit (Subscript tv slice) self = Ok (t, self1) →
  self_visit v self1 = Ok (val, self2) →
  self_visit (Assign (Subscript tv slice :: ts) v) self
  = Ok (Some (py_str t +:+ " = " +:+ py_str val +:+ ";"), self2).
Proof.
  clear visit_Any_framed.
  intros Hv Ht Hval. cbn [visit]. unfold visit_Assign. cbv zeta.
  unfold bind at 1. cbn [get_vars is_declared_Name isinstance_Subscript].
  change (visit _ _ _ _ _ _ (Subscript tv slice)) with (self_visit (Subscript tv slice)).
  destruct v; try discriminate Hv;
    unfold bind at 1; rewrite Ht; unfold bind at 1; by rewrite Hval.
Qed.

(** X20. An assignment whose first target is neither a tuple, a name
    nor a subscript (an attribute, say), of a value that is not a list
    literal, is emitted as an [auto] declaration from every state,
    also when the text of the target is already in [_vars]. *)
Theorem visit_Assign_other_target target ts v self t self1 val self2 :
  isinstance_Tuple target = false →
  isinstance_Name target = false →
  isinstance_Subscript target = false →
  isinstance_List v = false →
  self_visit target self = Ok (t, self1) →
  self_visit v self1 = Ok (val, self2) →
  self_visit (Assign (target :: ts) v) self
  = Ok (Some ("auto " +:+ py_str t +:+ " = " +:+ py_str val +:+ ";"),
        {| _type_map := _type_map self2;
           _function_stack := _function_stack self2;
           _vars := {[ t ]} ∪ _vars self2 |}).
Proof.
  clear visit_Any_framed.
  intros HT HN HS Hv Ht Hval. cbn [visit]. unfold visit_Assign. cbv zeta.
  assert (Hd : is_declared_Name target (_vars self) = false)
    by (destruct target; try discriminate HN; reflexivity).
  assert (Hgo :
    (let* vars := get_vars in
     if is_declared_Name target vars then
       let* t := self_visit target in
       let* val := self_visit v in
       ret (Some (py_str t +:+ " = " +:+ py_str val +:+ ";"))
     else
       match v with
       | List elts =>
           let* elements := for_each self_visit elts in
           let* ty := lift (decltype (Assign (target :: ts) v)) in
           let* t := self_visit target in
           let* j := lift (join ", " elements) in
           ret (Some (ty +:+ " " +:+ py_str t +:+ " {" +:+ j +:+ "};"))
       | _ =>
           if isinstance_Subscript target then
             let* t := self_visit target in
             let* val := self_visit v in
             ret (Some (py_str t +:+ " = " +:+ py_str val +:+ ";"))
           else
             let* t := self_visit target in
             let* val := self_visit v in
             let* _ := vars_add t in
             ret (Some ("auto " +:+ py_str t +:+ " = " +:+ py_str val +:+ ";"))
       end) self
    = Ok (Some ("auto " +:+ py_str t +:+ " = " +:+ py_str val +:+ ";"),
          {| _type_map := _type_map self2;
             _function_stack := _function_stack self2;
             _vars := {[ t ]} ∪ _vars self2 |})).
  { unfold bind at 1. cbn [get_vars]. rewrite Hd, HS.
    destruct v; try discriminate Hv;
      unfold bind at 1; rewrite Ht; unfold bind at 1; by rewrite Hval. }
  destruct target; try discriminate HT; try discriminate HN;
    try discriminate HS; exact Hgo.
Qed.

(** *** List repetition *)

(** X22. A list literal multiplied by a number is emitted from the
    first element of the literal only: the other elements are not
    visited; without elements the visit raises an [IndexError]. *)
Theorem visit_BinOp_list_repetition e0 rest op right_ self :
  isinstance_Mult op = true →
  isinstance_Num right_ = true →
  self_visit (BinOp (List (e0 :: rest)) op right_) self
  = self_visit (BinOp (List [e0]) op right_) self
  ∧ self_visit (BinOp (List []) op right_) self = Raise IndexError.
Proof.
  clear visit_Any_framed.
  intros Hop Hr. cbn [visit]. unfold visit_BinOp. rewrite Hop, Hr.
  split; [reflexivity|]. by destruct right_.
Qed.

(** *** Imports *)

Lemma for_each_alias names self :
  for_each self_visit (alias <$> names) self
  = Ok ((λ name, Some (include_line name)) <$> names, self).
Proof.
  induction names as [|name names IH]; [reflexivity|].
  rewrite !fmap_cons. cbn [for_each]. unfold bind at 1.
  cbn [visit]. unfold visit_alias. cbn [ret]. unfold bind at 1.
  by rewrite IH.
Qed.

(** X23. An import is always emitted, with the state left as it was:
    one [#include] line for each imported name, in order. *)
Theorem visit_Import_includes names self :
  self_visit (Import (alias <$> names)) self
  = Ok (Some (join_strs NL (include_line <$> names)), self).
Proof.
  clear visit_Any_framed.
  cbn [visit]. unfold visit_Import. unfold bind at 1.
  rewrite for_each_alias. unfold bind at 1, join.
  rewrite all_str_filter_None.
  replace (nonempty_strs ((λ name, Some (include_line name)) <$> names))
    with (include_line <$> names); [done|].
  induction names as [|name names IH]; [done|].
  rewrite !fmap_cons. cbn [nonempty_strs]. unfold include_line at 2.
  cbn. f_equal. exact IH.
Qed.

(** *** Arguments of a function *)

Lemma node_ids_not_Name args :
  Exists (λ a, isinstance_Name a = false) args →
  node_ids args = Raise AttributeError.
Proof.
  induction 1 as [a args Ha | a args _ IH].
  - by destruct a.
  - destruct a; simpl; by rewrite ?IH.
Qed.

(** X24. A function definition with an argument that is not a name
    raises an [AttributeError], once its body has been emitted. *)
Theorem visit_FunctionDef_argument_not_Name name args body self bs self1 ss :
  Exists (λ a, isinstance_Name a = false) args →
  for_each self_visit body
    (with_function_stack
       (_function_stack self ++ [FunctionDef name args body]) self)
  = Ok (bs, self1) →
  all_str bs = Some ss →
  self_visit (FunctionDef name args body) self = Raise AttributeError.
Proof.
  intros Hargs Hb Hs.
  assert (Hfr : frame
    (with_function_stack
       (_function_stack self ++ [FunctionDef name args body]) self) self1).
  { eapply (framed_for_each self_visit body); [|exact Hb].
    intros c _. by apply visit_framed. }
  destruct Hfr as (_ & Hst & _). simpl in Hst.
  cbn [visit]. unfold visit_FunctionDef.
  unfold bind at 1. cbn [function_stack_append].
  unfold with_function_stack in Hb. unfold bind at 1. rewrite Hb.
  unfold bind at 1, join. rewrite Hs. cbn [lift ret].
  unfold bind at 1. rewrite (function_stack_pop_append _ _ _ Hst).
  unfold template_fun, lambda_fun. rewrite (node_ids_not_Name _ Hargs).
  by destruct (is_recursive _).
Qed.

(** *** Annotated names *)

(** X25. [CppTranspiler()] has no [_type_map] and no visit gives it
    one: in every state that a visit from the initial state ends in, a
    name with the [is_annotation] attribute, other than [True],
    [False] and [None], raises an [AttributeError]. *)
Theorem visit_Name_annotated node v self id :
  self_visit node CppTranspiler_init = Ok (v, self) →
  plain_name id →
  self_visit (Name id true) self = Raise AttributeError.
Proof.
  intros Hv [Hb Hn].
  apply (visit_framed _ _ _ _ _ _ visit_Any_framed) in Hv as (Htm & _ & _).
  simpl in Htm. cbn [visit]. unfold visit_Name, CLike_visit_Name.
  rewrite decide_False by done. rewrite decide_False by done.
  by rewrite Htm.
Qed.

(** *** Unary operators *)

Lemma visit_UnaryOp_symbol k sym operand self :
  dict_get symbols k = Some sym →
  self_visit (UnaryOp (Sym k) operand) self
  = match self_visit operand self with
    | Ok (t, self1) => Ok (Some (sym +:+ py_str t), self1)
    | Raise e => Raise e
    end.
Proof.
  intros Hk. cbn [visit]. unfold visit_UnaryOp. unfold bind at 1.
  change (visit _ _ _ _ _ _ (Sym k) self) with (self_visit (Sym k) self).
  assert (Hs : self_visit (Sym k) self = Ok (Some sym, self)).
  { cbn [visit]. unfold dict_in, c_symbol. by rewrite Hk. }
  rewrite Hs. unfold bind at 1.
  by destruct (self_visit operand self) as [[t s1]|e].
Qed.

(** X13. A unary operator is put before its operand without a space or
    parentheses: a negation of a negation is emitted with the prefix
    [--]. *)
Theorem visit_UnaryOp_double_negation operand self t self1 :
  self_visit operand self = Ok (t, self1) →
  self_visit (UnaryOp (Sym USub) (UnaryOp (Sym USub) operand)) self
  = Ok (Some ("--" +:+ py_str t), self1).
Proof.
  clear visit_Any_framed.
  intros Ht.
  rewrite (visit_UnaryOp_symbol USub "-") by reflexivity.
  rewrite (visit_UnaryOp_symbol USub "-") by reflexivity.
  by rewrite Ht.
Qed.

(** *** Methods of lists *)

(** X18. A call of [append] on a name that [is_list] holds of, and that
    is not a builtin import, is emitted as a call of [push_back] on
    that name. *)
Theorem visit_Call_append id ann args self vs self' ss :
  is_list (Name id ann) = true →
  is_builtin_import id = false →
  for_each self_visit args self = Ok (vs, self') →
  all_str vs = Some ss →
  self_visit (Call (Attribute (Name id ann) "append") args) self
  = Ok (Some (id +:+ ".push_back" +:+ "(" +:+ join_strs ", " ss +:+ ")"), self').
Proof.
  clear visit_Any_framed.
  intros Hl Hb Ha Hs.
  assert (Hf : self_visit (Attribute (Name id ann) "append") self
               = Ok (Some (id +:+ ".push_back"), self)).
  { cbn [visit]. unfold visit_Attribute. unfold bind at 1.
    cbn [node_id lift ret]. rewrite Hb, Hl. by repeat case_decide. }
  rewrite (visit_Call_steps _ _ _ _ _ _ _ _ _ _ _ _ _ _ Hf Ha Hs). cbv zeta.
  assert (Hne : ∀ b : string, (∀ r : string, b ≠ r +:+ ".push_back") →
                Some (id +:+ ".push_back") ≠ Some b).
  { intros b Hb' [= E]. by apply (Hb' id). }
  assert (Hsuffix : ∀ (r : string) (b : string),
            String.length b < 10 → b ≠ r +:+ ".push_back").
  { intros r b Hlen ->. clear -Hlen.
    induction r as [|c r IH]; simpl in Hlen; [lia|]. apply IH. lia. }
  rewrite !decide_False;
    first (cbn [py_str]; unfold ret; by rewrite string_app_assoc).
  - apply Hne. intros r. apply Hsuffix. simpl. lia.
  - intros [H|H]; revert H; apply Hne; intros r; apply Hsuffix; simpl; lia.
  - apply Hne. intros r. apply Hsuffix. simpl. lia.
  - apply Hne. intros r. apply Hsuffix. simpl. lia.
  - apply Hne. intros r. apply Hsuffix. simpl. lia.
Qed.

(** *** Empty list literals in assignments *)

(** X21. An assignment of an empty list literal to a name that is in
    [_vars] raises the [ValueError] of [visit_List]. *)
Theorem visit_Assign_declared_empty_List id ts self :
  plain_name id →
  Some id ∈ _vars self →
  self_visit (Assign (Name id false :: ts) (List [])) self
  = Raise (ValueError "Cannot create vector without elements").
Proof.
  clear visit_Any_framed.
  intros Hid Hin.
  by rewrite (visit_Assign_reassign _ _ _ _ _ _ _ _ _ _ Hid Hin).
Qed.

End Further.

(** ** Further examples *)

Lemma sample_visit_Any_stateless (node : AST) :
  stateless ((λ _, raise AttributeError) node : M value).
Proof. apply stateless_raise. Defined.

Lemma visit_keeps_state_witness :
  sample_visit (Assign [Name "x" false] (Constant (CInt 1))) CppTranspiler_init
  = Ok (Some "auto x = 1;",
        {| _type_map := None; _function_stack := [];
           _vars := {[ Some "x" ]} ∪ ∅ |})
  ∧ frame CppTranspiler_init
      {| _type_map := None; _function_stack := [];
         _vars := {[ Some "x" ]} ∪ ∅ |}.
Proof.
  assert (H : sample_visit (Assign [Name "x" false] (Constant (CInt 1)))
                CppTranspiler_init
    = Ok (Some "auto x = 1;",
          {| _type_map := None; _function_stack := [];
             _vars := {[ Some "x" ]} ∪ ∅ |})) by (vm_compute; reflexivity).
  refine (conj H _).
  exact (visit_keeps_state
           (λ _, Ok "int") (λ _, false) (λ _, false) (λ _, false)
           (λ _, raise AttributeError)
           (λ l o r, Ok (Some (py_str l +:+ " " +:+ py_str o +:+ " " +:+ py_str r)))
           sample_visit_Any_framed _ _ _ _ H).
Defined.

Lemma visit_without_Assign_stateless_witness :
  let loop :=
    For (Name "i" false) (Call (Name "range" false) [Constant (CInt 3)])
      [Expr (Call (Name "f" false) [Name "i" false])] [] in
  has_Assign loop = false
  ∧ sample_visit loop CppTranspiler_init
    = Ok (Some (join_strs NL ["for(auto i : py14::range(3)) {"; "f(i);"; "}"]),
          CppTranspiler_init)
  ∧ CppTranspiler_init = CppTranspiler_init.
Proof.
  intros loop.
  assert (H1 : has_Assign loop = false) by reflexivity.
  assert (H2 : sample_visit loop CppTranspiler_init
    = Ok (Some (join_strs NL ["for(auto i : py14::range(3)) {"; "f(i);"; "}"]),
          CppTranspiler_init)) by (vm_compute; reflexivity).
  refine (conj H1 (conj H2 _)).
  exact (visit_without_Assign_stateless
           (λ _, Ok "int") (λ _, false) (λ _, false) (λ _, false)
           (λ _, raise AttributeError)
           (λ l o r, Ok (Some (py_str l +:+ " " +:+ py_str o +:+ " " +:+ py_str r)))
           sample_visit_Any_stateless loop _ _ _ H1 H2).
Defined.

Lemma visit_Module_first_error_witness :
  for_each sample_visit [Assign [Name "x" false] (Constant (CInt 1))]
    CppTranspiler_init
  = Ok ([Some "auto x = 1;"],
        {| _type_map := None; _function_stack := [];
           _vars := {[ Some "x" ]} ∪ ∅ |})
  ∧ sample_visit (Expr (List []))
      {| _type_map := None; _function_stack := [];
         _vars := {[ Some "x" ]} ∪ ∅ |}
    = Raise (ValueError "Cannot create vector without elements")
  ∧ sample_visit
      (Module ([Assign [Name "x" false] (Constant (CInt 1))]
               ++ Expr (List []) :: [Assign [Name "y" false] (Constant (CInt 2))]))
      CppTranspiler_init
    = Raise (ValueError "Cannot create vector without elements").
Proof.
  assert (H1 : for_each sample_visit [Assign [Name "x" false] (Constant (CInt 1))]
      CppTranspiler_init
    = Ok ([Some "auto x = 1;"],
          {| _type_map := None; _function_stack := [];
             _vars := {[ Some "x" ]} ∪ ∅ |})) by (vm_compute; reflexivity).
  assert (H2 : sample_visit (Expr (List []))
      {| _type_map := None; _function_stack := [];
         _vars := {[ Some "x" ]} ∪ ∅ |}
    = Raise (ValueError "Cannot create vector without elements"))
    by reflexivity.
  refine (conj H1 (conj H2 _)).
  exact (visit_Module_first_error
           (λ _, Ok "int") (λ _, false) (λ _, false) (λ _, false)
           (λ _, raise AttributeError)
           (λ l o r, Ok (Some (py_str l +:+ " " +:+ py_str o +:+ " " +:+ py_str r)))
           _ _
           [Assign [Name "y" false] (Constant (CInt 2))] _ _ _ _ H1 H2).
Defined.

Lemma visit_Module_lines_witness :
  for_each sample_visit
    [Other "ClassDef" []; Assign [Name "x" false] (Constant (CInt 1))]
    CppTranspiler_init
  = Ok ([None; Some "auto x = 1;"],
        {| _type_map := None; _function_stack := [];
           _vars := {[ Some "x" ]} ∪ ∅ |})
  ∧ sample_visit
      (Module [Other "ClassDef" []; Assign [Name "x" false] (Constant (CInt 1))])
      CppTranspiler_init
    = Ok (Some "auto x = 1;",
          {| _type_map := None; _function_stack := [];
             _vars := {[ Some "x" ]} ∪ ∅ |}).
Proof.
  assert (H1 : for_each sample_visit
      [Other "ClassDef" []; Assign [Name "x" false] (Constant (CInt 1))]
      CppTranspiler_init
    = Ok ([None; Some "auto x = 1;"],
          {| _type_map := None; _function_stack := [];
             _vars := {[ Some "x" ]} ∪ ∅ |})) by (vm_compute; reflexivity).
  refine (conj H1 _).
  exact (visit_Module_lines
           (λ _, Ok "int") (λ _, false) (λ _, false) (λ _, false)
           (λ _, raise AttributeError)
           (λ l o r, Ok (Some (py_str l +:+ " " +:+ py_str o +:+ " " +:+ py_str r)))
           _ _ _ _ H1).
Defined.

Lemma visit_FunctionDef_None_statement_witness :
  let node := FunctionDef "f" [] [Other "Global" []] in
  for_each sample_visit [Other "Global" []]
    (with_function_stack (_function_stack CppTranspiler_init ++ [node])
       CppTranspiler_init)
  = Ok ([None], with_function_stack [node] CppTranspiler_init)
  ∧ None ∈ [@None string]
  ∧ sample_visit node CppTranspiler_init = Raise TypeError.
Proof.
  intros node.
  assert (H1 : for_each sample_visit [Other "Global" []]
      (with_function_stack (_function_stack CppTranspiler_init ++ [node])
         CppTranspiler_init)
    = Ok ([None], with_function_stack [node] CppTranspiler_init))
    by reflexivity.
  assert (H2 : None ∈ [@None string]) by (left).
  refine (conj H1 (conj H2 _)).
  exact (visit_FunctionDef_None_statement
           (λ _, Ok "int") (λ _, false) (λ _, false) (λ _, false)
           (λ _, raise AttributeError)
           (λ l o r, Ok (Some (py_str l +:+ " " +:+ py_str o +:+ " " +:+ py_str r)))
           "f" [] _ _ _ _ H1 H2).
Defined.

Lemma visit_While_None_statement_witness :
  sample_visit (NameConstant (Some true)) CppTranspiler_init
  = Ok (Some "true", CppTranspiler_init)
  ∧ for_each sample_visit [Other "Global" []] CppTranspiler_init
    = Ok ([None], CppTranspiler_init)
  ∧ None ∈ [@None string]
  ∧ sample_visit (While (NameConstant (Some true)) [Other "Global" []] [])
      CppTranspiler_init
    = Raise TypeError.
Proof.
  assert (H1 : sample_visit (NameConstant (Some true)) CppTranspiler_init
               = Ok (Some "true", CppTranspiler_init)) by reflexivity.
  assert (H2 : for_each sample_visit [Other "Global" []] CppTranspiler_init
               = Ok ([None], CppTranspiler_init)) by reflexivity.
  assert (H3 : None ∈ [@None string]) by (left).
  refine (conj H1 (conj H2 (conj H3 _))).
  exact (visit_While_None_statement
           (λ _, Ok "int") (λ _, false) (λ _, false) (λ _, false)
           (λ _, raise AttributeError)
           (λ l o r, Ok (Some (py_str l +:+ " " +:+ py_str o +:+ " " +:+ py_str r)))
           _ _ [] _ _ _ _ _ H1 H2 H3).
Defined.

Lemma visit_Expr_semicolon_witness :
  sample_visit (Expr (Call (Name "f" false) [])) CppTranspiler_init
  = Ok (Some "f();", CppTranspiler_init)
  ∧ ∃ s, Some "f();" = Some s
         ∧ s ≠ ";"
         ∧ (strip_nonempty s = true → endswith_char s ";" = true).
Proof.
  assert (H : sample_visit (Expr (Call (Name "f" false) [])) CppTranspiler_init
              = Ok (Some "f();", CppTranspiler_init)) by reflexivity.
  refine (conj H _).
  exact (visit_Expr_semicolon
           (λ _, Ok "int") (λ _, false) (λ _, false) (λ _, false)
           (λ _, raise AttributeError)
           (λ l o r, Ok (Some (py_str l +:+ " " +:+ py_str o +:+ " " +:+ py_str r)))
           (Call (Name "f" false) []) CppTranspiler_init _ _ H).
Defined.

Lemma symbols_collisions_witness :
  dict_get symbols Div = Some "/"
  ∧ dict_get symbols FloorDiv = Some "/"
  ∧ (Div = FloorDiv ∨ (Div, FloorDiv) ∈ same_symbol).
Proof.
  refine (conj eq_refl (conj eq_refl _)).
  exact (symbols_collisions Div FloorDiv "/" eq_refl eq_refl).
Defined.

Lemma visit_AugAssign_unknown_operator_witness :
  dict_get symbols Pow = None
  ∧ sample_visit (Name "x" false) CppTranspiler_init
    = Ok (Some "x", CppTranspiler_init)
  ∧ sample_visit (Constant (CInt 2)) CppTranspiler_init
    = Ok (Some "2", CppTranspiler_init)
  ∧ c_symbol Pow = Raise KeyError
  ∧ sample_visit (Sym Pow) CppTranspiler_init = Ok (None, CppTranspiler_init)
  ∧ sample_visit (AugAssign (Name "x" false) (Sym Pow) (Constant (CInt 2)))
      CppTranspiler_init
    = Ok (Some "x None= 2;", CppTranspiler_init).
Proof.
  assert (H1 : dict_get symbols Pow = None) by reflexivity.
  assert (H2 : sample_visit (Name "x" false) CppTranspiler_init
               = Ok (Some "x", CppTranspiler_init)) by reflexivity.
  assert (H3 : sample_visit (Constant (CInt 2)) CppTranspiler_init
               = Ok (Some "2", CppTranspiler_init)) by reflexivity.
  refine (conj H1 (conj H2 (conj H3 _))).
  exact (visit_AugAssign_unknown_operator
           (λ _, Ok "int") (λ _, false) (λ _, false) (λ _, false)
           (λ _, raise AttributeError)
           (λ l o r, Ok (Some (py_str l +:+ " " +:+ py_str o +:+ " " +:+ py_str r)))
           Pow (Name "x" false) (Constant (CInt 2)) CppTranspiler_init
           _ _ _ _ H1 H2 H3).
Defined.

Lemma visit_BoolOp_no_parentheses_witness :
  let a := Name "a" false in
  let b := Name "b" false in
  let c := Name "c" false in
  for_each sample_visit [a; b] CppTranspiler_init
  = Ok ([Some "a"; Some "b"], CppTranspiler_init)
  ∧ sample_visit (BoolOp (Sym And) [BoolOp (Sym Or) [a; b]; c])
      CppTranspiler_init
    = sample_visit (BoolOp (Sym Or) [a; BoolOp (Sym And) [b; c]])
        CppTranspiler_init
  ∧ sample_visit (BoolOp (Sym And) [BoolOp (Sym Or) [a; b]; c])
      CppTranspiler_init
    = Ok (Some "a||b&&c", CppTranspiler_init).
Proof.
  intros a b c.
  assert (H1 : for_each sample_visit [a; b] CppTranspiler_init
               = Ok ([Some "a"; Some "b"], CppTranspiler_init)) by reflexivity.
  refine (conj H1 _).
  destruct (visit_BoolOp_no_parentheses
              (λ _, Ok "int") (λ _, false) (λ _, false) (λ _, false)
              (λ _, raise AttributeError)
              (λ l o r, Ok (Some (py_str l +:+ " " +:+ py_str o +:+ " " +:+ py_str r)))
              a b c CppTranspiler_init _ _ _ H1) as [Heq Htext].
  exact (conj Heq (Htext "c" CppTranspiler_init eq_refl)).
Defined.

Lemma visit_If_main_drops_orelse_witness :
  let test := Compare (Name "__name__" false) [Sym Is] [Str "__main__"] in
  let body := [Expr (Call (Name "run" false) [])] in
  let orelse := [Expr (List [])] in
  sample_visit test CppTranspiler_init = Ok (Some main_test, CppTranspiler_init)
  ∧ sample_visit (If test body orelse) CppTranspiler_init
    = sample_visit (If test body []) CppTranspiler_init
  ∧ sample_visit (If test body orelse) CppTranspiler_init
    = Ok (Some (join_strs NL
                  ["int main(int argc, char ** argv) {";
                   "py14::sys::argv = std::vector<std::string>(argv, argv + argc);";
                   "run();";
                   "}"]), CppTranspiler_init).
Proof.
  intros test body orelse.
  assert (H1 : sample_visit test CppTranspiler_init
               = Ok (Some main_test, CppTranspiler_init)) by reflexivity.
  refine (conj H1 _).
  exact (visit_If_main_drops_orelse
           (λ _, Ok "int") (λ _, false) (λ _, false) (λ _, false)
           (λ _, raise AttributeError)
           (λ l o r, Ok (Some (py_str l +:+ " " +:+ py_str o +:+ " " +:+ py_str r)))
           test body orelse CppTranspiler_init CppTranspiler_init H1).
Defined.

Lemma visit_Subscript_unsupported_witness :
  let slice := Other "Slice" [Constant (CInt 1); Constant (CInt 2)] in
  isinstance_Index slice = false
  ∧ isinstance_List (Constant (CInt 0)) = false
  ∧ sample_visit (Subscript (Name "a" false) slice) CppTranspiler_init
    = Raise (NotImplementedError "Advanced Slicing not supported")
  ∧ sample_visit (Assign [Subscript (Name "a" false) slice] (Constant (CInt 0)))
      CppTranspiler_init
    = Raise (NotImplementedError "Advanced Slicing not supported").
Proof.
  intros slice.
  refine (conj eq_refl (conj eq_refl _)).
  exact (visit_Subscript_unsupported
           (λ _, Ok "int") (λ _, false) (λ _, false) (λ _, false)
           (λ _, raise AttributeError)
           (λ l o r, Ok (Some (py_str l +:+ " " +:+ py_str o +:+ " " +:+ py_str r)))
           (Name "a" false) slice [] (Constant (CInt 0)) CppTranspiler_init
           eq_refl eq_refl).
Defined.

Lemma visit_Assign_Subscript_witness :
  isinstance_List (Constant (CInt 1)) = false
  ∧ sample_visit (Subscript (Name "a" false) (Index (Constant (CInt 0))))
      CppTranspiler_init
    = Ok (Some "a[0]", CppTranspiler_init)
  ∧ sample_visit (Constant (CInt 1)) CppTranspiler_init
    = Ok (Some "1", CppTranspiler_init)
  ∧ sample_visit
      (Assign [Subscript (Name "a" false) (Index (Constant (CInt 0)))]
         (Constant (CInt 1)))
      CppTranspiler_init
    = Ok (Some "a[0] = 1;", CppTranspiler_init).
Proof.
  assert (H2 : sample_visit (Subscript (Name "a" false) (Index (Constant (CInt 0))))
      CppTranspiler_init
    = Ok (Some "a[0]", CppTranspiler_init)) by reflexivity.
  assert (H3 : sample_visit (Constant (CInt 1)) CppTranspiler_init
    = Ok (Some "1", CppTranspiler_init)) by reflexivity.
  refine (conj eq_refl (conj H2 (conj H3 _))).
  exact (visit_Assign_Subscript
           (λ _, Ok "int") (λ _, false) (λ _, false) (λ _, false)
           (λ _, raise AttributeError)
           (λ l o r, Ok (Some (py_str l +:+ " " +:+ py_str o +:+ " " +:+ py_str r)))
           (Name "a" false) (Index (Constant (CInt 0))) [] (Constant (CInt 1))
           CppTranspiler_init _ _ _ _ eq_refl H2 H3).
Defined.

Lemma visit_Assign_other_target_witness :
  let target := Attribute (Name "p" false) "x" in
  let declared :=
    {| _type_map := None; _function_stack := [];
       _vars := {[ Some "p.x" ]} ∪ ∅ |} in
  isinstance_Tuple target = false
  ∧ isinstance_Name target = false
  ∧ isinstance_Subscript target = false
  ∧ isinstance_List (Constant (CInt 2)) = false
  ∧ sample_visit target declared = Ok (Some "p.x", declared)
  ∧ sample_visit (Constant (CInt 2)) declared = Ok (Some "2", declared)
  ∧ sample_visit (Assign [target] (Constant (CInt 2))) declared
    = Ok (Some "auto p.x = 2;",
          {| _type_map := None; _function_stack := [];
             _vars := {[ Some "p.x" ]} ∪ ({[ Some "p.x" ]} ∪ ∅) |}).
Proof.
  intros target declared.
  assert (H5 : sample_visit target declared = Ok (Some "p.x", declared))
    by reflexivity.
  assert (H6 : sample_visit (Constant (CInt 2)) declared = Ok (Some "2", declared))
    by reflexivity.
  refine (conj eq_refl (conj eq_refl (conj eq_refl (conj eq_refl
            (conj H5 (conj H6 _)))))).
  exact (visit_Assign_other_target
           (λ _, Ok "int") (λ _, false) (λ _, false) (λ _, false)
           (λ _, raise AttributeError)
           (λ l o r, Ok (Some (py_str l +:+ " " +:+ py_str o +:+ " " +:+ py_str r)))
           target [] (Constant (CInt 2)) declared _ _ _ _
           eq_refl eq_refl eq_refl eq_refl H5 H6).
Defined.

Lemma visit_FunctionDef_argument_not_Name_witness :
  let args := [Tuple [Name "a" false; Name "b" false]] in
  let node := FunctionDef "f" args [Return None] in
  Exists (λ a, isinstance_Name a = false) args
  ∧ for_each sample_visit [Return None]
      (with_function_stack (_function_stack CppTranspiler_init ++ [node])
         CppTranspiler_init)
    = Ok ([Some "return;"], with_function_stack [node] CppTranspiler_init)
  ∧ all_str [Some "return;"] = Some ["return;"]
  ∧ sample_visit node CppTranspiler_init = Raise AttributeError.
Proof.
  intros args node.
  assert (H1 : Exists (λ a, isinstance_Name a = false) args)
    by (apply Exists_cons_hd; reflexivity).
  assert (H2 : for_each sample_visit [Return None]
      (with_function_stack (_function_stack CppTranspiler_init ++ [node])
         CppTranspiler_init)
    = Ok ([Some "return;"], with_function_stack [node] CppTranspiler_init))
    by reflexivity.
  assert (H3 : all_str [Some "return;"] = Some ["return;"]) by reflexivity.
  refine (conj H1 (conj H2 (conj H3 _))).
  exact (visit_FunctionDef_argument_not_Name
           (λ _, Ok "int") (λ _, false) (λ _, false) (λ _, false)
           (λ _, raise AttributeError)
           (λ l o r, Ok (Some (py_str l +:+ " " +:+ py_str o +:+ " " +:+ py_str r)))
           sample_visit_Any_framed "f" args [Return None] CppTranspiler_init
           _ _ _ H1 H2 H3).
Defined.

Lemma visit_Name_annotated_witness :
  sample_visit (Assign [Name "x" false] (Constant (CInt 1))) CppTranspiler_init
  = Ok (Some "auto x = 1;",
        {| _type_map := None; _function_stack := [];
           _vars := {[ Some "x" ]} ∪ ∅ |})
  ∧ plain_name "x"
  ∧ sample_visit (Name "x" true)
      {| _type_map := None; _function_stack := [];
         _vars := {[ Some "x" ]} ∪ ∅ |}
    = Raise AttributeError.
Proof.
  assert (H1 : sample_visit (Assign [Name "x" false] (Constant (CInt 1)))
                 CppTranspiler_init
    = Ok (Some "auto x = 1;",
          {| _type_map := None; _function_stack := [];
             _vars := {[ Some "x" ]} ∪ ∅ |})) by (vm_compute; reflexivity).
  refine (conj H1 (conj plain_name_x _)).
  exact (visit_Name_annotated
           (λ _, Ok "int") (λ _, false) (λ _, false) (λ _, false)
           (λ _, raise AttributeError)
           (λ l o r, Ok (Some (py_str l +:+ " " +:+ py_str o +:+ " " +:+ py_str r)))
           sample_visit_Any_framed
           (Assign [Name "x" false] (Constant (CInt 1))) _ _ "x" H1 plain_name_x).
Defined.

Lemma visit_UnaryOp_double_negation_witness :
  sample_visit (Name "x" false) CppTranspiler_init
  = Ok (Some "x", CppTranspiler_init)
  ∧ sample_visit (UnaryOp (Sym USub) (UnaryOp (Sym USub) (Name "x" false)))
      CppTranspiler_init
    = Ok (Some "--x", CppTranspiler_init).
Proof.
  assert (H : sample_visit (Name "x" false) CppTranspiler_init
              = Ok (Some "x", CppTranspiler_init)) by reflexivity.
  refine (conj H _).
  exact (visit_UnaryOp_double_negation
           (λ _, Ok "int") (λ _, false) (λ _, false) (λ _, false)
           (λ _, raise AttributeError)
           (λ l o r, Ok (Some (py_str l +:+ " " +:+ py_str o +:+ " " +:+ py_str r)))
           (Name "x" false) CppTranspiler_init _ _ H).
Defined.

Lemma visit_Call_append_witness :
  let visit_lists :=
    visit (λ _, Ok "int") (λ _, true) (λ _, false) (λ _, false)
      (λ _, raise AttributeError)
      (λ l o r, Ok (Some (py_str l +:+ " " +:+ py_str o +:+ " " +:+ py_str r))) in
  (λ _ : AST, true) (Name "a" false) = true
  ∧ (λ _ : string, false) "a" = false
  ∧ for_each visit_lists [Constant (CInt 1)] CppTranspiler_init
    = Ok ([Some "1"], CppTranspiler_init)
  ∧ all_str [Some "1"] = Some ["1"]
  ∧ visit_lists (Call (Attribute (Name "a" false) "append") [Constant (CInt 1)])
      CppTranspiler_init
    = Ok (Some "a.push_back(1)", CppTranspiler_init).
Proof.
  intros visit_lists.
  assert (H3 : for_each visit_lists [Constant (CInt 1)] CppTranspiler_init
               = Ok ([Some "1"], CppTranspiler_init)) by reflexivity.
  assert (H4 : all_str [Some "1"] = Some ["1"]) by reflexivity.
  refine (conj eq_refl (conj eq_refl (conj H3 (conj H4 _)))).
  exact (visit_Call_append
           (λ _, Ok "int") (λ _, true) (λ _, false) (λ _, false)
           (λ _, raise AttributeError)
           (λ l o r, Ok (Some (py_str l +:+ " " +:+ py_str o +:+ " " +:+ py_str r)))
           "a" false [Constant (CInt 1)] CppTranspiler_init _ _ _
           eq_refl eq_refl H3 H4).
Defined.

Lemma visit_Assign_declared_empty_List_witness :
  plain_name "x"
  ∧ Some "x" ∈ _vars {| _type_map := None; _function_stack := [];
                         _vars := {[ Some "x" ]} ∪ ∅ |}
  ∧ sample_visit (Assign [Name "x" false] (List []))
      {| _type_map := None; _function_stack := [];
         _vars := {[ Some "x" ]} ∪ ∅ |}
    = Raise (ValueError "Cannot create vector without elements").
Proof.
  assert (H2 : Some "x" ∈ _vars {| _type_map := None; _function_stack := [];
                                   _vars := {[ Some "x" ]} ∪ ∅ |})
    by (simpl; set_solver).
  refine (conj plain_name_x (conj H2 _)).
  exact (visit_Assign_declared_empty_List
           (λ _, Ok "int") (λ _, false) (λ _, false) (λ _, false)
           (λ _, raise AttributeError)
           (λ l o r, Ok (Some (py_str l +:+ " " +:+ py_str o +:+ " " +:+ py_str r)))
           "x" [] _ plain_name_x H2).
Defined.

Lemma visit_BinOp_list_repetition_witness :
  isinstance_Mult (Sym Mult) = true
  ∧ isinstance_Num (Num 3) = true
  ∧ sample_visit
      (BinOp (List [Name "x" false; List []]) (Sym Mult) (Num 3))
      CppTranspiler_init
    = sample_visit (BinOp (List [Name "x" false]) (Sym Mult) (Num 3))
        CppTranspiler_init
  ∧ sample_visit (BinOp (List []) (Sym Mult) (Num 3)) CppTranspiler_init
    = Raise IndexError.
Proof.
  refine (conj eq_refl (conj eq_refl _)).
  exact (visit_BinOp_list_repetition
           (λ _, Ok "int") (λ _, false) (λ _, false) (λ _, false)
           (λ _, raise AttributeError)
           (λ l o r, Ok (Some (py_str l +:+ " " +:+ py_str o +:+ " " +:+ py_str r)))
           (Name "x" false) [List []] (Sym Mult) (Num 3) CppTranspiler_init
           eq_refl eq_refl).
Defined.
